(** * Real-time session and buffering layer of ditto-talkinghead

    A shallow embedding of [rtmp_streaming_service.py] and
    [streaming_service.py]: the two frame writers, the audio capture, the
    two session services and the HTTP handlers that guard them, followed by
    the properties of the buffering and session layer.

    Conventions.  A Python object is a record; a method is a function from
    the object (and the answers of the outside world to the calls the method
    makes) to the object after the call and the way the call ended
    ([Ok v] for a return, [Raise e] for an exception).  The state is
    returned in both cases, because a mutation made before a raise stays.
    The registry dictionaries are finite maps keyed by the session id. *)

From Stdlib Require Import ZArith.
From Stdlib.Strings Require Import Byte.
From stdpp Require Import base option list strings gmap fin_maps pretty.

Local Open Scope string_scope.
Local Open Scope Z_scope.

(** ** Exceptions and results *)

(** The exception classes the two files raise, catch or let through. *)
Inductive exn : Type :=
| Full                     (* queue.Full *)
| Empty                    (* queue.Empty *)
| QueueFull                (* asyncio.QueueFull *)
| QueueEmpty               (* asyncio.QueueEmpty *)
| BrokenPipeError
| OSError (what : string)  (* any other OSError, FileNotFoundError included *)
| TimeoutExpired           (* subprocess.TimeoutExpired *)
| ValueError (what : string)
| RuntimeError (what : string)
| HTTPException (status_code : Z) (detail : string).

Inductive result (A : Type) : Type :=
| Ok (a : A)
| Raise (e : exn).
Arguments Ok {A} a.
Arguments Raise {A} e.

(** [except (BrokenPipeError, OSError)]: BrokenPipeError is a subclass of
    OSError, so the clause catches the whole OSError family. *)
Definition is_OSError (e : exn) : bool :=
  match e with
  | BrokenPipeError | OSError _ => true
  | _ => false
  end.

(** [except subprocess.TimeoutExpired]. *)
Definition is_TimeoutExpired (e : exn) : bool :=
  match e with
  | TimeoutExpired => true
  | _ => false
  end.

(** [except Exception]: every class above derives from Exception. *)
Definition is_Exception (e : exn) : bool := true.

(** [str(e)] as used for the detail of a 500 answer. *)
Definition str_exn (e : exn) : string :=
  match e with
  | Full | Empty | QueueFull | QueueEmpty | TimeoutExpired => EmptyString
  | BrokenPipeError => "[Errno 32] Broken pipe"
  | OSError s | ValueError s | RuntimeError s => s
  | HTTPException _ d => d
  end.

(** ** The library queues

    [queue.Queue] and [asyncio.Queue] share the behaviour used here: a FIFO
    with a [maxsize]; [put_nowait] raises when [maxsize > 0] and the queue
    holds [maxsize] items or more, [get_nowait] raises on an empty queue and
    removes the oldest item otherwise.  They differ in the exception class,
    which is a parameter of the two operations. *)
Module PyQueue.

Record t (A : Type) : Type := mk { maxsize : Z; items : list A }.
Arguments mk {A} maxsize items.
Arguments maxsize {A} _.
Arguments items {A} _.

Definition new {A : Type} (maxsize : Z) : t A := mk maxsize [].

Definition qsize {A : Type} (q : t A) : Z := Z.of_nat (length (items q)).

Definition full {A : Type} (q : t A) : bool :=
  (0 <? maxsize q) && (maxsize q <=? qsize q).

Definition empty {A : Type} (q : t A) : bool :=
  match items q with [] => true | _ => false end.

Definition put_nowait {A : Type} (is_full : exn) (q : t A) (x : A) : result (t A) :=
  if full q then Raise is_full else Ok (mk (maxsize q) (items q ++ [x])).

Definition get_nowait {A : Type} (is_empty : exn) (q : t A) : result (A * t A) :=
  match items q with
  | [] => Raise is_empty
  | x :: rest => Ok (x, mk (maxsize q) rest)
  end.

(** Emptying a queue with [get_nowait] until it raises; [fuel] bounds the
    number of calls. *)
Fixpoint drain {A : Type} (is_empty : exn) (fuel : nat) (q : t A) : list A * t A :=
  match fuel with
  | O => ([], q)
  | S fuel' =>
      match get_nowait is_empty q with
      | Raise _ => ([], q)
      | Ok (x, q') => let '(xs, q'') := drain is_empty fuel' q' in (x :: xs, q'')
      end
  end.

End PyQueue.

(** ** External collaborators

    numpy, OpenCV, base64 and the clock are used through a handful of pure
    calls.  Their value types and functions are the members of one
    interface; the services are defined and verified for every
    implementation of it.  Each call is taken to return a value: an error
    raised inside OpenCV itself is outside the model. *)
Class Extern : Type := {
  ndarray : Type;                                (* an image buffer *)
  float : Type;                                  (* what time.time() returns *)
  shape2 : ndarray -> Z * Z;                     (* frame.shape[:2] *)
  cvtColor_BGR2RGB : ndarray -> ndarray;         (* cv2.cvtColor(f, cv2.COLOR_BGR2RGB) *)
  cvtColor_RGB2BGR : ndarray -> ndarray;         (* cv2.cvtColor(f, cv2.COLOR_RGB2BGR) *)
  resize : ndarray -> Z * Z -> ndarray;          (* cv2.resize(f, (width, height)) *)
  tobytes : ndarray -> list byte;                (* f.tobytes() *)
  imencode_jpg : ndarray -> Z -> list byte;      (* cv2.imencode('.jpg', f, [QUALITY, q])[1] *)
  b64encode : list byte -> string                (* base64.b64encode(b).decode('utf-8') *)
}.

(** A float32 sample is kept as the four bytes it is read from. *)
Definition float32 : Type := (byte * byte * byte * byte)%type.

(** [np.frombuffer(in_data, dtype=np.float32)]: one sample per four bytes;
    numpy raises ValueError when the length is not a multiple of four. *)
Fixpoint frombuffer_float32 (in_data : list byte) : result (list float32) :=
  match in_data with
  | [] => Ok []
  | b0 :: b1 :: b2 :: b3 :: rest =>
      match frombuffer_float32 rest with
      | Ok samples => Ok ((b0, b1, b2, b3) :: samples)
      | Raise e => Raise e
      end
  | _ => Raise (ValueError "buffer size must be a multiple of element size")
  end.

Definition is_Full (e : exn) : bool := match e with Full => true | _ => false end.
Definition is_Empty (e : exn) : bool := match e with Empty => true | _ => false end.
Definition is_QueueFull (e : exn) : bool := match e with QueueFull => true | _ => false end.
Definition is_QueueEmpty (e : exn) : bool := match e with QueueEmpty => true | _ => false end.

(** * rtmp_streaming_service.py *)

(** ** class RTMPStreamWriter *)
Module RTMPStreamWriter.

(** The ffmpeg child as the writer sees it: the command line it was started
    with, the frames [stdin.write] accepted, and how far its teardown went. *)
Record Popen : Type := mkPopen {
  args : list string;
  stdin_written : list (list byte);
  stdin_closed : bool;
  exited : bool;
  killed : bool
}.

Record t : Type := mk {
  rtmp_url : string;
  width : Z;
  height : Z;
  fps : Z;
  process : option Popen;
  is_active : bool
}.

Definition set_process (self : t) (p : option Popen) : t :=
  mk (rtmp_url self) (width self) (height self) (fps self) p (is_active self).
Definition set_is_active (self : t) (b : bool) : t :=
  mk (rtmp_url self) (width self) (height self) (fps self) (process self) b.

(** [__init__(rtmp_url, width=512, height=512, fps=25)]. *)
Definition __init__ (rtmp_url : string) (width height fps : Z) : t :=
  mk rtmp_url width height fps None false.

(** [RTMPStreamWriter(rtmp_url)], the defaults filled in. *)
Definition new (rtmp_url : string) : t := __init__ rtmp_url 512 512 25.

Definition ffmpeg_cmd (self : t) : list string :=
  [ "ffmpeg"; "-y"; "-f"; "rawvideo"; "-vcodec"; "rawvideo"; "-pix_fmt"; "rgb24";
    "-s"; pretty (width self) +:+ "x" +:+ pretty (height self);
    "-r"; pretty (fps self); "-i"; "-";
    "-c:v"; "libx264"; "-pix_fmt"; "yuv420p"; "-preset"; "ultrafast";
    "-tune"; "zerolatency"; "-g"; "30"; "-sc_threshold"; "0"; "-f"; "flv";
    rtmp_url self ].

(** [start]: [popen_raises] is what [subprocess.Popen] raises, if anything
    (ffmpeg missing, no more processes). *)
Definition start (self : t) (popen_raises : option exn) : t * result unit :=
  match popen_raises with
  | Some e => (self, Raise e)
  | None =>
      let self1 := set_process self (Some (mkPopen (ffmpeg_cmd self) [] false false false)) in
      (set_is_active self1 true, Ok tt)
  end.

(** What the pipe answers to one [stdin.write] followed by [stdin.flush]. *)
Inductive pipe_answer : Type :=
| Accepts
| WriteRaises (e : exn)
| FlushRaises (e : exn).

Definition stdin_write (p : Popen) (data : list byte) : Popen :=
  mkPopen (args p) (stdin_written p ++ [data]) (stdin_closed p) (exited p) (killed p).

Section WithExtern.
Context `{Extern}.

(** [__call__(frame_rgb, fmt)]. *)
Definition __call__ (self : t) (frame_rgb : ndarray) (fmt : string) (pipe : pipe_answer)
  : t * result unit :=
  match is_active self, process self with
  | true, Some p =>
      (* try: *)
      let frame_rgb1 :=
        if negb (String.eqb fmt "rgb") then cvtColor_BGR2RGB frame_rgb else frame_rgb in
      let frame_rgb2 :=
        if negb (bool_decide (shape2 frame_rgb1 = (height self, width self)))
        then resize frame_rgb1 (width self, height self) else frame_rgb1 in
      let '(self1, raised) :=
        match pipe with
        | WriteRaises e => (self, Some e)
        | FlushRaises e => (set_process self (Some (stdin_write p (tobytes frame_rgb2))), Some e)
        | Accepts => (set_process self (Some (stdin_write p (tobytes frame_rgb2))), None)
        end in
      match raised with
      | None => (self1, Ok tt)
      | Some e =>
          (* except (BrokenPipeError, OSError): *)
          if is_OSError e then (set_is_active self1 false, Ok tt)
          else (self1, Raise e)
      end
  | _, _ => (self, Ok tt)
  end.

(** One call of [__call__]: its two arguments and the answer of the pipe. *)
Record frame_call : Type := mkCall {
  frame_rgb : ndarray;
  fmt : string;
  pipe : pipe_answer
}.

Definition call (self : t) (c : frame_call) : t * result unit :=
  __call__ self (frame_rgb c) (fmt c) (pipe c).

(** A run of calls, stopped at the first one that raises. *)
Fixpoint calls (self : t) (cs : list frame_call) : t * result unit :=
  match cs with
  | [] => (self, Ok tt)
  | c :: rest =>
      match call self c with
      | (self1, Ok _) => calls self1 rest
      | (self1, Raise e) => (self1, Raise e)
      end
  end.

End WithExtern.

(** What the child answers during [close]. *)
Record close_env : Type := mkCloseEnv {
  stdin_close_raises : option exn;
  wait_raises : option exn   (* [Some TimeoutExpired]: still running after 5 s *)
}.

(** [close]. *)
Definition close (self : t) (env : close_env) : t * result unit :=
  let self1 := set_is_active self false in
  match process self1 with
  | Some p =>
      (* try: stdin.close(); wait(timeout=5) *)
      let p1 := mkPopen (args p) (stdin_written p) true (exited p) (killed p) in
      let '(p2, raised) :=
        match stdin_close_raises env with
        | Some e => (p1, Some e)
        | None =>
            match wait_raises env with
            | Some e => (p1, Some e)
            | None => (mkPopen (args p1) (stdin_written p1) true true (killed p1), None)
            end
        end in
      match raised with
      | None => (set_process self1 None, Ok tt)
      | Some e =>
          (* except subprocess.TimeoutExpired: kill() *)
          if is_TimeoutExpired e then (set_process self1 None, Ok tt)
          else (set_process self1 (Some p2), Raise e)
      end
  | None => (self1, Ok tt)
  end.

End RTMPStreamWriter.

(** ** class AudioCapture *)
Module AudioCapture.

(** The PortAudio input stream handle. *)
Record PaStream : Type := mkPaStream { running : bool; closed : bool }.

Record t : Type := mk {
  sample_rate : Z;
  chunk_size : Z;
  audio_terminated : bool;          (* self.audio, the PyAudio instance *)
  stream : option PaStream;
  audio_queue : PyQueue.t (list float32);
  is_active : bool
}.

Definition set_stream (self : t) (s : option PaStream) : t :=
  mk (sample_rate self) (chunk_size self) (audio_terminated self) s
     (audio_queue self) (is_active self).
Definition set_audio_queue (self : t) (q : PyQueue.t (list float32)) : t :=
  mk (sample_rate self) (chunk_size self) (audio_terminated self) (stream self)
     q (is_active self).
Definition set_is_active (self : t) (b : bool) : t :=
  mk (sample_rate self) (chunk_size self) (audio_terminated self) (stream self)
     (audio_queue self) b.
Definition set_audio_terminated (self : t) (b : bool) : t :=
  mk (sample_rate self) (chunk_size self) b (stream self)
     (audio_queue self) (is_active self).

(** [__init__(sample_rate=16000, chunk_size=1024)]; [pyaudio_raises] is what
    [pyaudio.PyAudio()] raises, if anything. *)
Definition __init__ (sample_rate chunk_size : Z) (pyaudio_raises : option exn) : result t :=
  match pyaudio_raises with
  | Some e => Raise e
  | None => Ok (mk sample_rate chunk_size false None (PyQueue.new 100) false)
  end.

(** [AudioCapture()], the defaults filled in. *)
Definition new (pyaudio_raises : option exn) : result t := __init__ 16000 1024 pyaudio_raises.

(** What the audio device answers during [start_capture]. *)
Record start_env : Type := mkStartEnv {
  open_raises : option exn;          (* self.audio.open(...) *)
  start_stream_raises : option exn   (* self.stream.start_stream() *)
}.

(** [start_capture]: the whole body is under [try ... except Exception],
    whose handler prints and falls through. *)
Definition start_capture (self : t) (env : start_env) : t * result unit :=
  let '(self1, raised) :=
    match open_raises env with
    | Some e => (self, Some e)
    | None =>
        let self1 := set_stream self (Some (mkPaStream false false)) in
        match start_stream_raises env with
        | Some e => (self1, Some e)
        | None =>
            let self2 := set_stream self1 (Some (mkPaStream true false)) in
            (set_is_active self2 true, None)
        end
    end in
  match raised with
  | None => (self1, Ok tt)
  | Some e => if is_Exception e then (self1, Ok tt) else (self1, Raise e)
  end.

Definition paContinue : Z := 0.

(** [_audio_callback(in_data, frame_count, time_info, status)]; the last
    three arguments are not read. *)
Definition _audio_callback (self : t) (in_data : list byte)
  : t * result (option (list byte) * Z) :=
  if is_active self then
    match frombuffer_float32 in_data with
    | Raise e => (self, Raise e)
    | Ok audio_data =>
        match PyQueue.put_nowait Full (audio_queue self) audio_data with
        | Ok q1 => (set_audio_queue self q1, Ok (None, paContinue))
        | Raise e =>
            if is_Full e then
              (* drop the oldest chunk, then put again *)
              match PyQueue.get_nowait Empty (audio_queue self) with
              | Raise e1 =>
                  if is_Empty e1 then (self, Ok (None, paContinue)) else (self, Raise e1)
              | Ok (_, q1) =>
                  match PyQueue.put_nowait Full q1 audio_data with
                  | Ok q2 => (set_audio_queue self q2, Ok (None, paContinue))
                  | Raise e2 =>
                      if is_Empty e2 then (set_audio_queue self q1, Ok (None, paContinue))
                      else (set_audio_queue self q1, Raise e2)
                  end
              end
            else (self, Raise e)
        end
    end
  else (self, Ok (None, paContinue)).

(** [get_audio_chunk(timeout)] seen with no callback running during the
    wait: the oldest chunk, or [None] once the timeout has passed on an
    empty queue. *)
Definition get_audio_chunk (self : t) : t * option (list float32) :=
  match PyQueue.get_nowait Empty (audio_queue self) with
  | Ok (chunk, q1) => (set_audio_queue self q1, Some chunk)
  | Raise _ => (self, None)
  end.

(** Calling [get_audio_chunk] until it answers [None]. *)
Fixpoint drain (fuel : nat) (self : t) : list (list float32) * t :=
  match fuel with
  | O => ([], self)
  | S fuel' =>
      match get_audio_chunk self with
      | (self1, Some chunk) =>
          let '(chunks, self2) := drain fuel' self1 in (chunk :: chunks, self2)
      | (self1, None) => ([], self1)
      end
  end.

(** What the audio device answers during [stop_capture]. *)
Record stop_env : Type := mkStopEnv {
  stop_stream_raises : option exn;   (* self.stream.stop_stream() *)
  close_raises : option exn;         (* self.stream.close() *)
  terminate_raises : option exn      (* self.audio.terminate() *)
}.

(** [stop_capture]. *)
Definition stop_capture (self : t) (env : stop_env) : t * result unit :=
  let self1 := set_is_active self false in
  let terminate (s : t) : t * result unit :=
    match terminate_raises env with
    | Some e => (s, Raise e)
    | None => (set_audio_terminated s true, Ok tt)
    end in
  match stream self1 with
  | Some st =>
      match stop_stream_raises env with
      | Some e => (self1, Raise e)
      | None =>
          let self2 := set_stream self1 (Some (mkPaStream false (closed st))) in
          match close_raises env with
          | Some e => (self2, Raise e)
          | None => terminate (set_stream self2 None)
          end
      end
  | None => terminate self1
  end.

(** Feeding a list of device buffers to the callback, one call each; the
    run stops at the first call that raises. *)
Fixpoint callbacks (self : t) (buffers : list (list byte)) : t * result unit :=
  match buffers with
  | [] => (self, Ok tt)
  | in_data :: rest =>
      match _audio_callback self in_data with
      | (self1, Ok _) => callbacks self1 rest
      | (self1, Raise e) => (self1, Raise e)
      end
  end.

End AudioCapture.

(** ** The inference engine: [stream_pipeline_online.StreamSDK]

    The engine is an external collaborator.  Only what the services do to
    it is kept: construction, [setup], the reassignment of its [writer],
    the chunks handed to [run_chunk], and [close]. *)
Module StreamSDK.

Record setup_kwargs : Type := mkKwargs {
  online_mode : bool;
  sampling_timesteps : Z;
  crop_scale_tenths : Z;     (* crop_scale = 2.3 is 23 tenths *)
  max_size : Z
}.

(** Where the engine sends its frames: the writer [setup] built for the
    output path, or the writer object of the session, assigned afterwards
    ([sdk.writer = ...]; the same object the session entry holds). *)
Inductive sink : Type :=
| FileWriter (output_path : string)
| SessionWriter.

Record t : Type := mk {
  cfg_pkl : string;
  data_root : string;
  source : option (string * setup_kwargs);
  writer : option sink;
  chunks : list (list float32);
  closed : bool
}.

Definition __init__ (cfg_pkl data_root : string) (raises : option exn) : result t :=
  match raises with
  | Some e => Raise e
  | None => Ok (mk cfg_pkl data_root None None [] false)
  end.

Definition setup (self : t) (source_path output_path : string) (kw : setup_kwargs)
    (raises : option exn) : t * result unit :=
  match raises with
  | Some e => (self, Raise e)
  | None =>
      (mk (cfg_pkl self) (data_root self) (Some (source_path, kw))
          (Some (FileWriter output_path)) (chunks self) (closed self), Ok tt)
  end.

Definition set_writer (self : t) (w : sink) : t :=
  mk (cfg_pkl self) (data_root self) (source self) (Some w) (chunks self) (closed self).

Definition run_chunk (self : t) (audio_chunk : list float32) (raises : option exn)
  : t * result unit :=
  match raises with
  | Some e => (self, Raise e)
  | None =>
      (mk (cfg_pkl self) (data_root self) (source self) (writer self)
          (chunks self ++ [audio_chunk]) (closed self), Ok tt)
  end.

Definition close (self : t) (raises : option exn) : t * result unit :=
  match raises with
  | Some e => (self, Raise e)
  | None =>
      (mk (cfg_pkl self) (data_root self) (source self) (writer self)
          (chunks self) true, Ok tt)
  end.

End StreamSDK.

(** ** [threading.Thread], as far as [start] and [join(timeout)] go *)
Module Thread.

Record t : Type := mk { started : bool; alive : bool }.

Definition new : t := mk false false.

Definition start (self : t) (raises : option exn) : t * result unit :=
  match raises with
  | Some e => (self, Raise e)
  | None => (mk true true, Ok tt)
  end.

(** [join(timeout=5)]: returns when the thread has ended or when the
    timeout has passed, whichever comes first; [ends_in_time] says which.
    Joining a thread that was never started raises RuntimeError. *)
Definition join (self : t) (ends_in_time : bool) : t * result unit :=
  if negb (started self) then
    (self, Raise (RuntimeError "cannot join thread before it is started"))
  else if alive self then (mk true (negb ends_in_time), Ok tt)
  else (self, Ok tt).

End Thread.

(** ** class TalkingHeadRTMPService *)
Module TalkingHeadRTMPService.

(** One value of [active_streams]: the dictionary of a stream.  The key
    ["audio_thread"] is present once processing was started. *)
Record stream_entry : Type := mkEntry {
  sdk : StreamSDK.t;
  rtmp_writer : RTMPStreamWriter.t;
  audio_capture : AudioCapture.t;
  active : bool;
  audio_thread : option Thread.t
}.

Definition set_sdk (s : stream_entry) (x : StreamSDK.t) : stream_entry :=
  mkEntry x (rtmp_writer s) (audio_capture s) (active s) (audio_thread s).
Definition set_rtmp_writer (s : stream_entry) (x : RTMPStreamWriter.t) : stream_entry :=
  mkEntry (sdk s) x (audio_capture s) (active s) (audio_thread s).
Definition set_audio_capture (s : stream_entry) (x : AudioCapture.t) : stream_entry :=
  mkEntry (sdk s) (rtmp_writer s) x (active s) (audio_thread s).
Definition set_active (s : stream_entry) (x : bool) : stream_entry :=
  mkEntry (sdk s) (rtmp_writer s) (audio_capture s) x (audio_thread s).
Definition set_audio_thread (s : stream_entry) (x : option Thread.t) : stream_entry :=
  mkEntry (sdk s) (rtmp_writer s) (audio_capture s) (active s) x.

Record t : Type := mk {
  cfg_pkl : string;
  data_root : string;
  active_streams : gmap string stream_entry
}.

Definition __init__ (cfg_pkl data_root : string) : t := mk cfg_pkl data_root ∅.

Definition set_active_streams (self : t) (m : gmap string stream_entry) : t :=
  mk (cfg_pkl self) (data_root self) m.

(** The stream dictionary is shared between the registry and the local
    variable [stream]: a change made through the variable is a change of the
    registered value. *)
Definition store (self : t) (stream_id : string) (stream : stream_entry) : t :=
  set_active_streams self (<[stream_id := stream]> (active_streams self)).

Definition setup_kwargs : StreamSDK.setup_kwargs := StreamSDK.mkKwargs true 25 23 512.

(** What the outside answers during [create_stream]. *)
Record create_env : Type := mkCreateEnv {
  sdk_init_raises : option exn;
  popen_raises : option exn;
  pyaudio_raises : option exn;
  sdk_setup_raises : option exn
}.

(** [create_stream(stream_id, source_path, rtmp_url)]. *)
Definition create_stream (self : t) (stream_id source_path rtmp_url : string)
    (env : create_env) : t * result (StreamSDK.t * AudioCapture.t) :=
  match StreamSDK.__init__ (cfg_pkl self) (data_root self) (sdk_init_raises env) with
  | Raise e => (self, Raise e)
  | Ok sdk0 =>
      match RTMPStreamWriter.start (RTMPStreamWriter.new rtmp_url) (popen_raises env) with
      | (_, Raise e) => (self, Raise e)
      | (rtmp_writer0, Ok _) =>
          match AudioCapture.new (pyaudio_raises env) with
          | Raise e => (self, Raise e)
          | Ok audio_capture0 =>
              match StreamSDK.setup sdk0 source_path "/dev/null" setup_kwargs
                      (sdk_setup_raises env) with
              | (_, Raise e) => (self, Raise e)
              | (sdk1, Ok _) =>
                  let sdk2 := StreamSDK.set_writer sdk1 StreamSDK.SessionWriter in
                  (store self stream_id
                     (mkEntry sdk2 rtmp_writer0 audio_capture0 true None),
                   Ok (sdk2, audio_capture0))
              end
          end
      end
  end.

(** What the outside answers during [start_stream_processing]. *)
Record processing_env : Type := mkProcessingEnv {
  capture_start : AudioCapture.start_env;
  thread_start_raises : option exn
}.

(** [start_stream_processing(stream_id)]. *)
Definition start_stream_processing (self : t) (stream_id : string)
    (env : processing_env) : t * result unit :=
  match active_streams self !! stream_id with
  | None => (self, Ok tt)
  | Some stream =>
      match AudioCapture.start_capture (audio_capture stream) (capture_start env) with
      | (cap1, Raise e) => (store self stream_id (set_audio_capture stream cap1), Raise e)
      | (cap1, Ok _) =>
          let stream1 := set_audio_capture stream cap1 in
          let stream2 := set_audio_thread stream1 (Some Thread.new) in
          match Thread.start Thread.new (thread_start_raises env) with
          | (th, Raise e) => (store self stream_id stream2, Raise e)
          | (th, Ok _) => (store self stream_id (set_audio_thread stream2 (Some th)), Ok tt)
          end
      end
  end.

(** One turn of the loop of [audio_processor], the body of the worker
    thread: [None] when the loop has ended. *)
Definition audio_processor_turn (stream : stream_entry) (run_chunk_raises : option exn)
  : option (stream_entry * result unit) :=
  if active stream then
    match AudioCapture.get_audio_chunk (audio_capture stream) with
    | (cap1, Some audio_chunk) =>
        let stream1 := set_audio_capture stream cap1 in
        match StreamSDK.run_chunk (sdk stream1) audio_chunk run_chunk_raises with
        | (sdk1, r) => Some (set_sdk stream1 sdk1, r)
        end
    | (cap1, None) => Some (set_audio_capture stream cap1, Ok tt)
    end
  else None.

(** What the outside answers during [stop_stream]. *)
Record stop_env : Type := mkStopEnv {
  capture_stop : AudioCapture.stop_env;
  thread_ends_in_time : bool;            (* the worker ends within the 5 s of join *)
  sdk_close_raises : option exn;
  writer_close : RTMPStreamWriter.close_env
}.

(** [stop_stream(stream_id)].  Besides the service and the way the call
    ended, the model returns the local variable [stream]: the dictionary the
    call worked on, as the call left it ([None] when the id is unknown and
    nothing was touched). *)
Definition stop_stream (self : t) (stream_id : string) (env : stop_env)
  : t * option stream_entry * result unit :=
  match active_streams self !! stream_id with
  | None => (self, None, Ok tt)
  | Some stream =>
      let stream1 := set_active stream false in
      (* Stop audio capture *)
      match AudioCapture.stop_capture (audio_capture stream1) (capture_stop env) with
      | (cap1, Raise e) =>
          let stream2 := set_audio_capture stream1 cap1 in
          (store self stream_id stream2, Some stream2, Raise e)
      | (cap1, Ok _) =>
          let stream2 := set_audio_capture stream1 cap1 in
          (* Wait for audio thread *)
          let '(stream3, joined) :=
            match audio_thread stream2 with
            | Some th =>
                match Thread.join th (thread_ends_in_time env) with
                | (th1, r) => (set_audio_thread stream2 (Some th1), r)
                end
            | None => (stream2, Ok tt)
            end in
          match joined with
          | Raise e => (store self stream_id stream3, Some stream3, Raise e)
          | Ok _ =>
              (* Stop SDK and RTMP *)
              match StreamSDK.close (sdk stream3) (sdk_close_raises env) with
              | (sdk1, Raise e) =>
                  let stream4 := set_sdk stream3 sdk1 in
                  (store self stream_id stream4, Some stream4, Raise e)
              | (sdk1, Ok _) =>
                  let stream4 := set_sdk stream3 sdk1 in
                  match RTMPStreamWriter.close (rtmp_writer stream4) (writer_close env) with
                  | (w1, Raise e) =>
                      let stream5 := set_rtmp_writer stream4 w1 in
                      (store self stream_id stream5, Some stream5, Raise e)
                  | (w1, Ok _) =>
                      let stream5 := set_rtmp_writer stream4 w1 in
                      (set_active_streams self (delete stream_id (active_streams self)),
                       Some stream5, Ok tt)
                  end
              end
          end
      end
  end.

End TalkingHeadRTMPService.

(** ** The HTTP handlers of rtmp_streaming_service.py

    Each handler is an [async def] with no [await] in it, so it runs from
    its first line to its last without another handler in between; the
    global [service] is its first argument. *)
Module RtmpApp.

Import TalkingHeadRTMPService.

Record StreamRequest : Type := mkRequest { source_path : string; rtmp_url : string }.

(** The JSON bodies the handlers return. *)
Inductive body : Type :=
| Started (message : string) (rtmp_url : string)
| Stopped (message : string)
| Streams (active_streams : list string) (count : nat)
| Health (status : string) (service : string).

Record start_env : Type := mkStartEnv {
  create : create_env;
  processing : processing_env
}.

(** [POST /start_stream/{stream_id}]. *)
Definition start_stream (service : t) (stream_id : string) (request : StreamRequest)
    (env : start_env) : t * result body :=
  if bool_decide (stream_id ∈ dom (active_streams service)) then
    (service, Raise (HTTPException 400 "Stream already exists"))
  else
    (* try: *)
    let '(service2, raised) :=
      match create_stream service stream_id (source_path request) (rtmp_url request)
              (create env) with
      | (service1, Raise e) => (service1, Some e)
      | (service1, Ok _) =>
          match start_stream_processing service1 stream_id (processing env) with
          | (service2, Raise e) => (service2, Some e)
          | (service2, Ok _) => (service2, None)
          end
      end in
    match raised with
    | None =>
        (service2,
         Ok (Started ("Stream " +:+ stream_id +:+ " started successfully")
                     (rtmp_url request)))
    | Some e =>
        (* except Exception as e: *)
        if is_Exception e then (service2, Raise (HTTPException 500 (str_exn e)))
        else (service2, Raise e)
    end.

(** [DELETE /stop_stream/{stream_id}]. *)
Definition stop_stream (service : t) (stream_id : string) (env : stop_env)
  : t * result body :=
  if negb (bool_decide (stream_id ∈ dom (active_streams service))) then
    (service, Raise (HTTPException 404 "Stream not found"))
  else
    match TalkingHeadRTMPService.stop_stream service stream_id env with
    | (service1, _, Ok _) =>
        (service1, Ok (Stopped ("Stream " +:+ stream_id +:+ " stopped successfully")))
    | (service1, _, Raise e) =>
        if is_Exception e then (service1, Raise (HTTPException 500 (str_exn e)))
        else (service1, Raise e)
    end.

(** [GET /streams]. *)
Definition list_streams (service : t) : body :=
  Streams (map_to_list (active_streams service)).*1 (size (active_streams service)).

(** [GET /health]. *)
Definition health_check : body := Health "healthy" "ditto-talkinghead-rtmp".

End RtmpApp.

(** * streaming_service.py *)

(** ** class StreamingVideoWriter *)
Module StreamingVideoWriter.

(** The connection a writer was built for; only its identity is kept. *)
Definition WebSocket : Type := nat.

Section WithExtern.
Context `{Extern}.

(** The dictionaries put on the frame queue:
    [{"type": "frame", "data": ..., "timestamp": ...}] and [{"type": "end"}]. *)
Inductive msg : Type :=
| FrameMsg (data : string) (timestamp : float)
| EndMsg.

Record t : Type := mk {
  websocket : WebSocket;
  frame_queue : PyQueue.t msg;
  is_active : bool
}.

Definition set_frame_queue (self : t) (q : PyQueue.t msg) : t :=
  mk (websocket self) q (is_active self).
Definition set_is_active (self : t) (b : bool) : t :=
  mk (websocket self) (frame_queue self) b.

(** [__init__(websocket)]. *)
Definition __init__ (websocket : WebSocket) : t := mk websocket (PyQueue.new 30) true.

(** The base64 JPEG text [__call__] computes for a frame. *)
Definition frame_base64 (frame_rgb : ndarray) (fmt : string) : string :=
  let frame_bgr := if String.eqb fmt "rgb" then cvtColor_RGB2BGR frame_rgb else frame_rgb in
  let buffer := imencode_jpg frame_bgr 80 in
  b64encode buffer.

(** [__call__(frame_rgb, fmt)].  [now] is what [time.time()] answers when
    the first dictionary is built, [now_again] what it answers when the
    second one is built after the oldest frame was dropped. *)
Definition __call__ (self : t) (frame_rgb : ndarray) (fmt : string)
    (now now_again : float) : t * result unit :=
  if negb (is_active self) then (self, Ok tt)
  else
    let data := frame_base64 frame_rgb fmt in
    match PyQueue.put_nowait QueueFull (frame_queue self) (FrameMsg data now) with
    | Ok q1 => (set_frame_queue self q1, Ok tt)
    | Raise e =>
        if is_QueueFull e then
          (* drop the oldest frame, then put again *)
          match PyQueue.get_nowait QueueEmpty (frame_queue self) with
          | Raise e1 => if is_QueueEmpty e1 then (self, Ok tt) else (self, Raise e1)
          | Ok (_, q1) =>
              match PyQueue.put_nowait QueueFull q1 (FrameMsg data now_again) with
              | Ok q2 => (set_frame_queue self q2, Ok tt)
              | Raise e2 =>
                  if is_QueueEmpty e2 then (set_frame_queue self q1, Ok tt)
                  else (set_frame_queue self q1, Raise e2)
              end
          end
        else (self, Raise e)
    end.

(** [close]. *)
Definition close (self : t) : t * result unit :=
  let self1 := set_is_active self false in
  match PyQueue.put_nowait QueueFull (frame_queue self1) EndMsg with
  | Ok q1 => (set_frame_queue self1 q1, Ok tt)
  | Raise e => if is_QueueFull e then (self1, Ok tt) else (self1, Raise e)
  end.

(** One call of [__call__] by the engine: its two arguments and the two
    readings of the clock. *)
Record frame_call : Type := mkCall {
  frame_rgb : ndarray;
  fmt : string;
  now : float;
  now_again : float
}.

Definition call (self : t) (c : frame_call) : t * result unit :=
  __call__ self (frame_rgb c) (fmt c) (now c) (now_again c).

(** A run of calls, stopped at the first one that raises. *)
Fixpoint calls (self : t) (cs : list frame_call) : t * result unit :=
  match cs with
  | [] => (self, Ok tt)
  | c :: rest =>
      match call self c with
      | (self1, Ok _) => calls self1 rest
      | (self1, Raise e) => (self1, Raise e)
      end
  end.

End WithExtern.
End StreamingVideoWriter.

(** ** class TalkingHeadStreamingService *)
Module TalkingHeadStreamingService.
Section WithExtern.
Context `{Extern}.

(** One value of [active_sessions]. *)
Record session_entry : Type := mkEntry {
  sdk : StreamSDK.t;
  writer : StreamingVideoWriter.t;
  websocket : StreamingVideoWriter.WebSocket;
  active : bool
}.

Definition set_sdk (s : session_entry) (x : StreamSDK.t) : session_entry :=
  mkEntry x (writer s) (websocket s) (active s).
Definition set_writer (s : session_entry) (x : StreamingVideoWriter.t) : session_entry :=
  mkEntry (sdk s) x (websocket s) (active s).
Definition set_active (s : session_entry) (x : bool) : session_entry :=
  mkEntry (sdk s) (writer s) (websocket s) x.

Record t : Type := mk {
  cfg_pkl : string;
  data_root : string;
  active_sessions : gmap string session_entry
}.

Definition __init__ (cfg_pkl data_root : string) : t := mk cfg_pkl data_root ∅.

Definition set_active_sessions (self : t) (m : gmap string session_entry) : t :=
  mk (cfg_pkl self) (data_root self) m.

Definition store (self : t) (session_id : string) (session : session_entry) : t :=
  set_active_sessions self (<[session_id := session]> (active_sessions self)).

Definition setup_kwargs : StreamSDK.setup_kwargs := StreamSDK.mkKwargs true 25 23 512.

(** [create_session(session_id, source_path, websocket)]. *)
Definition create_session (self : t) (session_id source_path : string)
    (websocket : StreamingVideoWriter.WebSocket)
    (sdk_init_raises sdk_setup_raises : option exn) : t * result StreamSDK.t :=
  match StreamSDK.__init__ (cfg_pkl self) (data_root self) sdk_init_raises with
  | Raise e => (self, Raise e)
  | Ok sdk0 =>
      let streaming_writer := StreamingVideoWriter.__init__ websocket in
      match StreamSDK.setup sdk0 source_path "/dev/null" setup_kwargs sdk_setup_raises with
      | (_, Raise e) => (self, Raise e)
      | (sdk1, Ok _) =>
          let sdk2 := StreamSDK.set_writer sdk1 StreamSDK.SessionWriter in
          (store self session_id (mkEntry sdk2 streaming_writer websocket true), Ok sdk2)
      end
  end.

(** [process_audio_chunk(session_id, audio_data)]. *)
Definition process_audio_chunk (self : t) (session_id : string)
    (audio_data : list float32) (run_chunk_raises : option exn) : t * result unit :=
  match active_sessions self !! session_id with
  | Some session =>
      if active session then
        match StreamSDK.run_chunk (sdk session) audio_data run_chunk_raises with
        | (sdk1, r) => (store self session_id (set_sdk session sdk1), r)
        end
      else (self, Ok tt)
  | None => (self, Ok tt)
  end.

(** [close_session(session_id)]; as for the RTMP service, the model also
    returns the local variable [session] as the call left it. *)
Definition close_session (self : t) (session_id : string) (sdk_close_raises : option exn)
  : t * option session_entry * result unit :=
  match active_sessions self !! session_id with
  | None => (self, None, Ok tt)
  | Some session =>
      let session1 := set_active session false in
      match StreamSDK.close (sdk session1) sdk_close_raises with
      | (sdk1, Raise e) =>
          let session2 := set_sdk session1 sdk1 in
          (store self session_id session2, Some session2, Raise e)
      | (sdk1, Ok _) =>
          let session2 := set_sdk session1 sdk1 in
          match StreamingVideoWriter.close (writer session2) with
          | (w1, Raise e) =>
              let session3 := set_writer session2 w1 in
              (store self session_id session3, Some session3, Raise e)
          | (w1, Ok _) =>
              let session3 := set_writer session2 w1 in
              (set_active_sessions self (delete session_id (active_sessions self)),
               Some session3, Ok tt)
          end
      end
  end.

End WithExtern.
End TalkingHeadStreamingService.

(** * Properties *)

Local Close Scope string_scope.
Local Open Scope list_scope.

(** ** The newest [n] elements of a list *)

Definition lastn {A : Type} (n : nat) (l : list A) : list A :=
  drop (length l - n) l.

Section Lastn.
Context {A : Type}.
Implicit Types (l k : list A) (n : nat).

Lemma lastn_short n l : (length l ≤ n)%nat → lastn n l = l.
Proof.
  intros Hlen. unfold lastn.
  replace (length l - n)%nat with 0%nat by lia. reflexivity.
Qed.

Lemma length_lastn n l : length (lastn n l) = Nat.min n (length l).
Proof. unfold lastn. rewrite length_drop. lia. Qed.

Lemma lastn_app_long n l k : (n ≤ length k)%nat → lastn n (l ++ k) = lastn n k.
Proof.
  intros Hlen. unfold lastn. rewrite length_app.
  replace (length l + length k - n)%nat with (length l + (length k - n))%nat by lia.
  rewrite drop_app_add. reflexivity.
Qed.

Lemma lastn_lastn_app n l k : lastn n (lastn n l ++ k) = lastn n (l ++ k).
Proof.
  destruct (decide (length l ≤ n)%nat) as [Hle | Hgt].
  - rewrite (lastn_short n l) by exact Hle. reflexivity.
  - assert (lastn n l ++ k = drop (length l - n) (l ++ k)) as ->.
    { unfold lastn. rewrite drop_app_le by lia. reflexivity. }
    unfold lastn. rewrite drop_drop. f_equal.
    rewrite length_drop, !length_app. lia.
Qed.

(** A full list loses its head when one element is appended. *)
Lemma lastn_snoc_full n x l y :
  length (x :: l) = n → lastn n ((x :: l) ++ [y]) = l ++ [y].
Proof.
  intros Hlen. unfold lastn. rewrite length_app. simpl in *.
  replace (S (length l + 1) - n)%nat with 1%nat by lia. reflexivity.
Qed.

End Lastn.

(** ** The library queue under the drop-oldest pattern *)
Section QueueFacts.
Context {A : Type}.
Implicit Types (q : PyQueue.t A) (x : A).

(** A queue that respects its positive capacity. *)
Definition within_capacity (n : nat) q : Prop :=
  PyQueue.maxsize q = Z.of_nat n ∧ (0 < n)%nat ∧ (length (PyQueue.items q) ≤ n)%nat.

Lemma full_iff n q :
  within_capacity n q → PyQueue.full q = true ↔ length (PyQueue.items q) = n.
Proof.
  intros (Hmax & Hpos & Hlen). unfold PyQueue.full, PyQueue.qsize. rewrite Hmax.
  rewrite andb_true_iff, Z.ltb_lt, Z.leb_le. lia.
Qed.

Lemma put_nowait_room e n q x :
  within_capacity n q → PyQueue.full q = false →
  PyQueue.put_nowait e q x = Ok (PyQueue.mk (PyQueue.maxsize q) (lastn n (PyQueue.items q ++ [x])))
  ∧ (length (PyQueue.items q) < n)%nat.
Proof.
  intros Hcap Hfull.
  assert (length (PyQueue.items q) ≠ n) as Hne.
  { intros Heq. apply (full_iff n q Hcap) in Heq. congruence. }
  destruct Hcap as (Hmax & Hpos & Hlen).
  unfold PyQueue.put_nowait. rewrite Hfull.
  rewrite lastn_short by (rewrite length_app; simpl; lia).
  split; [reflexivity | lia].
Qed.

Lemma put_nowait_full e q x : PyQueue.full q = true → PyQueue.put_nowait e q x = Raise e.
Proof. intros Hfull. unfold PyQueue.put_nowait. rewrite Hfull. reflexivity. Qed.

(** On a full queue the oldest element leaves and the retry finds room. *)
Lemma get_then_put_full e e' n q x :
  within_capacity n q → PyQueue.full q = true →
  ∃ y q1,
    PyQueue.get_nowait e' q = Ok (y, q1) ∧
    PyQueue.put_nowait e q1 x
      = Ok (PyQueue.mk (PyQueue.maxsize q) (lastn n (PyQueue.items q ++ [x]))).
Proof.
  intros Hcap Hfull.
  pose proof (proj1 (full_iff n q Hcap) Hfull) as Hlen.
  destruct Hcap as (Hmax & Hpos & _).
  destruct q as [m its]. simpl in *. subst m.
  destruct its as [| y rest]; [simpl in Hlen; lia |].
  exists y, (PyQueue.mk (Z.of_nat n) rest). split; [reflexivity |].
  unfold PyQueue.put_nowait, PyQueue.full, PyQueue.qsize. simpl in *.
  replace (0 <? Z.of_nat n) with true by (symmetry; apply Z.ltb_lt; lia).
  replace (Z.of_nat n <=? Z.of_nat (length rest)) with false
    by (symmetry; apply Z.leb_gt; lia).
  pose proof (lastn_snoc_full n y rest x Hlen) as Hlast.
  simpl in *. rewrite Hlast. reflexivity.
Qed.

Lemma within_capacity_lastn n (l : list A) :
  (0 < n)%nat → within_capacity n (PyQueue.mk (Z.of_nat n) (lastn n l)).
Proof.
  intros Hpos. repeat split; [exact Hpos |]. simpl. rewrite length_lastn. lia.
Qed.

(** Pulling with [get_nowait] until it raises returns the content, oldest
    first, as soon as the fuel exceeds the number of elements. *)
Lemma drain_all e fuel q :
  (length (PyQueue.items q) < fuel)%nat →
  PyQueue.drain e fuel q = (PyQueue.items q, PyQueue.mk (PyQueue.maxsize q) []).
Proof.
  revert q. induction fuel as [| fuel IH]; intros [m its] Hlen; simpl in *; [lia |].
  destruct its as [| x rest]; simpl; [reflexivity |].
  unfold PyQueue.get_nowait. simpl.
  rewrite (IH (PyQueue.mk m rest)) by (simpl in *; lia). reflexivity.
Qed.

End QueueFacts.

(** ** The audio queue of [AudioCapture] *)
Section AudioQueue.
Import AudioCapture.

(** The device buffer [in_data] decodes to [chunk]. *)
Definition decodes (in_data : list byte) (chunk : list float32) : Prop :=
  frombuffer_float32 in_data = Ok chunk.

Lemma set_audio_queue_same c :
  set_audio_queue c (PyQueue.mk (PyQueue.maxsize (audio_queue c))
                                (PyQueue.items (audio_queue c))) = c.
Proof. destruct c as [? ? ? ? [? ?] ?]. reflexivity. Qed.

(** One callback on an active capture: the chunk goes in, and the oldest
    one leaves when there was no room. *)
Lemma audio_callback_pushes n c in_data chunk :
  is_active c = true →
  within_capacity n (audio_queue c) →
  decodes in_data chunk →
  _audio_callback c in_data
  = (set_audio_queue c
       (PyQueue.mk (Z.of_nat n) (lastn n (PyQueue.items (audio_queue c) ++ [chunk]))),
     Ok (None, paContinue)).
Proof.
  intros Hact Hcap Hdec. unfold _audio_callback. rewrite Hact, Hdec.
  pose proof Hcap as (Hmax & _ & _).
  destruct (PyQueue.full (audio_queue c)) eqn:Hfull.
  - rewrite (put_nowait_full Full _ _ Hfull). simpl.
    destruct (get_then_put_full Full Empty n _ chunk Hcap Hfull) as (y & q1 & Hget & Hput).
    rewrite Hget, Hput, Hmax. reflexivity.
  - destruct (put_nowait_room Full n _ chunk Hcap Hfull) as [Hput _].
    rewrite Hput, Hmax. reflexivity.
Qed.

Lemma callbacks_push n c buffers chunks :
  is_active c = true →
  within_capacity n (audio_queue c) →
  Forall2 decodes buffers chunks →
  callbacks c buffers
  = (set_audio_queue c
       (PyQueue.mk (Z.of_nat n) (lastn n (PyQueue.items (audio_queue c) ++ chunks))),
     Ok tt).
Proof.
  intros Hact Hcap Hdec. revert c Hact Hcap.
  induction Hdec as [| in_data chunk buffers chunks Hd _ IH]; intros c Hact Hcap.
  - simpl. rewrite app_nil_r.
    destruct Hcap as (Hmax & Hpos & Hlen).
    rewrite lastn_short by exact Hlen. rewrite <- Hmax, set_audio_queue_same. reflexivity.
  - simpl. rewrite (audio_callback_pushes n c in_data chunk Hact Hcap Hd).
    rewrite IH.
    + simpl. rewrite lastn_lastn_app, <- app_assoc. reflexivity.
    + exact Hact.
    + simpl. apply within_capacity_lastn. apply Hcap.
Qed.

Lemma audio_drain_all fuel c :
  (length (PyQueue.items (audio_queue c)) < fuel)%nat →
  drain fuel c
  = (PyQueue.items (audio_queue c),
     set_audio_queue c (PyQueue.mk (PyQueue.maxsize (audio_queue c)) [])).
Proof.
  revert c. induction fuel as [| fuel IH]; intros c Hlen; [lia |].
  destruct c as [sr cs term st [m its] act]. simpl in *.
  destruct its as [| x rest]; [reflexivity |].
  unfold get_audio_chunk. simpl.
  rewrite IH by (simpl in *; lia). reflexivity.
Qed.

End AudioQueue.

(** ** The frame queue of [StreamingVideoWriter] *)
Section FrameQueue.
Context `{Extern}.
Import StreamingVideoWriter.

(** The dictionary a call puts on the queue: stamped with the first
    reading of the clock when there is room, with the second one when the
    oldest frame had to go first. *)
Definition pushed_msg (w : t) (c : frame_call) : msg :=
  FrameMsg (frame_base64 (frame_rgb c) (fmt c))
           (if PyQueue.full (frame_queue w) then now_again c else now c).

Fixpoint pushed (w : t) (cs : list frame_call) : list msg :=
  match cs with
  | [] => []
  | c :: rest => pushed_msg w c :: pushed (fst (call w c)) rest
  end.

(** The message is the frame dictionary of the call: its JPEG text, and
    one of the two readings of the clock taken during the call. *)
Definition carries (m : msg) (c : frame_call) : Prop :=
  m = FrameMsg (frame_base64 (frame_rgb c) (fmt c)) (now c) ∨
  m = FrameMsg (frame_base64 (frame_rgb c) (fmt c)) (now_again c).

Lemma set_frame_queue_same w :
  set_frame_queue w (PyQueue.mk (PyQueue.maxsize (frame_queue w))
                                (PyQueue.items (frame_queue w))) = w.
Proof. destruct w as [? [? ?] ?]. reflexivity. Qed.

Lemma call_pushes n w c :
  is_active w = true →
  within_capacity n (frame_queue w) →
  call w c
  = (set_frame_queue w
       (PyQueue.mk (Z.of_nat n)
                   (lastn n (PyQueue.items (frame_queue w) ++ [pushed_msg w c]))),
     Ok tt).
Proof.
  intros Hact Hcap. unfold call, __call__, pushed_msg. rewrite Hact. simpl.
  pose proof Hcap as (Hmax & _ & _).
  destruct (PyQueue.full (frame_queue w)) eqn:Hfull.
  - rewrite (put_nowait_full QueueFull _ _ Hfull). simpl.
    destruct (get_then_put_full QueueFull QueueEmpty n _
                (FrameMsg (frame_base64 (frame_rgb c) (fmt c)) (now_again c)) Hcap Hfull)
      as (y & q1 & Hget & Hput).
    rewrite Hget, Hput, Hmax. reflexivity.
  - destruct (put_nowait_room QueueFull n _
                (FrameMsg (frame_base64 (frame_rgb c) (fmt c)) (now c)) Hcap Hfull)
      as [Hput _].
    rewrite Hput, Hmax. reflexivity.
Qed.

Lemma calls_push n w cs :
  is_active w = true →
  within_capacity n (frame_queue w) →
  calls w cs
  = (set_frame_queue w
       (PyQueue.mk (Z.of_nat n) (lastn n (PyQueue.items (frame_queue w) ++ pushed w cs))),
     Ok tt).
Proof.
  revert w. induction cs as [| c cs IH]; intros w Hact Hcap.
  - simpl. rewrite app_nil_r.
    destruct Hcap as (Hmax & Hpos & Hlen).
    rewrite lastn_short by exact Hlen. rewrite <- Hmax, set_frame_queue_same. reflexivity.
  - simpl. rewrite (call_pushes n w c Hact Hcap). simpl.
    rewrite IH.
    + simpl. rewrite lastn_lastn_app, <- app_assoc. reflexivity.
    + exact Hact.
    + simpl. apply within_capacity_lastn. apply Hcap.
Qed.

Lemma pushed_carries w cs : Forall2 carries (pushed w cs) cs.
Proof.
  revert w. induction cs as [| c cs IH]; intros w; simpl; constructor.
  - unfold carries, pushed_msg. destruct (PyQueue.full (frame_queue w)); auto.
  - apply IH.
Qed.

End FrameQueue.

(** ** A test double of the external interface

    Images are a pair of dimensions and a flat byte buffer, the colour
    conversions reverse the buffer, the JPEG encoder keeps it, and the clock
    counts in integers.  It serves to run the model on concrete inputs. *)
Definition test_extern : Extern := {|
  ndarray := (Z * Z) * list byte;
  float := Z;
  shape2 := fst;
  cvtColor_BGR2RGB := λ f, (fst f, reverse (snd f));
  cvtColor_RGB2BGR := λ f, (fst f, reverse (snd f));
  resize := λ f size, ((snd size, fst size), snd f);
  tobytes := snd;
  imencode_jpg := λ f quality, snd f;
  b64encode := Stdlib.Strings.String.string_of_list_byte
|}.

Definition test_frame (i : nat) : @ndarray test_extern :=
  ((512, 512), [Byte.x01; Byte.x02; default Byte.x00 (Byte.of_nat i)]).

Definition test_call (i : nat) : @StreamingVideoWriter.frame_call test_extern :=
  StreamingVideoWriter.mkCall (H := test_extern) (test_frame i) "rgb"%string
    (2 * Z.of_nat i) (2 * Z.of_nat i + 1).

Definition test_buffer (i : nat) : list byte :=
  [default Byte.x00 (Byte.of_nat i); Byte.x00; Byte.x80; Byte.x3f].

Definition test_chunk (i : nat) : list float32 :=
  [(default Byte.x00 (Byte.of_nat i), Byte.x00, Byte.x80, Byte.x3f)].

(** The capture after [AudioCapture()] and a [start_capture()] that found
    its device. *)
Definition capturing : AudioCapture.t :=
  AudioCapture.mk 16000 1024 false (Some (AudioCapture.mkPaStream true false))
                  (PyQueue.new 100) true.

(** ** C1: both bounded channels keep the newest elements *)

(** C1. Whatever is pushed into the audio queue (capacity 100) through
    [AudioCapture._audio_callback], or into the frame queue (capacity 30)
    through [StreamingVideoWriter.__call__], no call raises, the queue never
    holds more than its capacity after any number of the pushes, and once
    more pushes than the capacity were made, draining the queue returns
    exactly the last 100 chunks (resp. the frame dictionaries of the last 30
    calls), oldest first, and leaves it empty. *)
Theorem bounded_channels_keep_the_newest `{Extern}
    (c : AudioCapture.t) (buffers : list (list byte)) (chunks : list (list float32))
    (w : StreamingVideoWriter.t) (cs : list StreamingVideoWriter.frame_call) :
  AudioCapture.is_active c = true →
  PyQueue.maxsize (AudioCapture.audio_queue c) = 100 →
  (length (PyQueue.items (AudioCapture.audio_queue c)) ≤ 100)%nat →
  Forall2 decodes buffers chunks →
  StreamingVideoWriter.is_active w = true →
  PyQueue.maxsize (StreamingVideoWriter.frame_queue w) = 30 →
  (length (PyQueue.items (StreamingVideoWriter.frame_queue w)) ≤ 30)%nat →
  (∀ k : nat, ∃ ck,
      AudioCapture.callbacks c (take k buffers) = (ck, Ok tt) ∧
      (length (PyQueue.items (AudioCapture.audio_queue ck)) ≤ 100)%nat) ∧
  ((100 < length buffers)%nat → ∃ c',
      AudioCapture.callbacks c buffers = (c', Ok tt) ∧
      AudioCapture.drain 101 c'
      = (lastn 100 chunks, AudioCapture.set_audio_queue c' (PyQueue.mk 100 []))) ∧
  (∀ k : nat, ∃ wk,
      StreamingVideoWriter.calls w (take k cs) = (wk, Ok tt) ∧
      (length (PyQueue.items (StreamingVideoWriter.frame_queue wk)) ≤ 30)%nat) ∧
  ((30 < length cs)%nat → ∃ w' msgs,
      StreamingVideoWriter.calls w cs = (w', Ok tt) ∧
      PyQueue.drain QueueEmpty 31 (StreamingVideoWriter.frame_queue w')
      = (msgs, PyQueue.mk 30 []) ∧
      Forall2 carries msgs (lastn 30 cs)).
Proof.
  intros Hact Hmax Hlen Hdec HactW HmaxW HlenW.
  assert (within_capacity 100 (AudioCapture.audio_queue c)) as Hcap
    by (repeat split; [exact Hmax | lia | exact Hlen]).
  assert (within_capacity 30 (StreamingVideoWriter.frame_queue w)) as HcapW
    by (repeat split; [exact HmaxW | lia | exact HlenW]).
  pose proof (Forall2_length _ _ _ Hdec) as Hsame.
  split; [| split; [| split]].
  - intros k. eexists. split.
    + apply (callbacks_push 100 c (take k buffers) (take k chunks) Hact Hcap).
      apply Forall2_take, Hdec.
    + simpl. rewrite length_lastn. lia.
  - intros Hmany. eexists. split.
    + apply (callbacks_push 100 c buffers chunks Hact Hcap Hdec).
    + rewrite audio_drain_all by (simpl; rewrite length_lastn; lia).
      simpl. rewrite lastn_app_long by lia. reflexivity.
  - intros k. eexists. split.
    + apply (calls_push 30 w (take k cs) HactW HcapW).
    + simpl. rewrite length_lastn. lia.
  - intros Hmany.
    assert (length (pushed w cs) = length cs) as Hpushed
      by (apply (Forall2_length _ _ _ (pushed_carries w cs))).
    eexists. exists (lastn 30 (pushed w cs)). split; [| split].
    + apply (calls_push 30 w cs HactW HcapW).
    + rewrite drain_all by (simpl; rewrite length_lastn; lia).
      simpl. rewrite lastn_app_long by lia. reflexivity.
    + unfold lastn. rewrite Hpushed. apply Forall2_drop, pushed_carries.
Qed.

(** The theorem at work: 101 one-sample buffers into a fresh capture, and
    31 frames into a fresh writer. *)
Lemma bounded_channels_keep_the_newest_witness :
  (∀ k : nat, ∃ ck,
      AudioCapture.callbacks capturing (take k (test_buffer <$> seq 0 101)) = (ck, Ok tt) ∧
      (length (PyQueue.items (AudioCapture.audio_queue ck)) ≤ 100)%nat) ∧
  ((100 < length (test_buffer <$> seq 0 101))%nat → ∃ c',
      AudioCapture.callbacks capturing (test_buffer <$> seq 0 101) = (c', Ok tt) ∧
      AudioCapture.drain 101 c'
      = (lastn 100 (test_chunk <$> seq 0 101),
         AudioCapture.set_audio_queue c' (PyQueue.mk 100 []))) ∧
  (∀ k : nat, ∃ wk,
      StreamingVideoWriter.calls (StreamingVideoWriter.__init__ (H := test_extern) 7%nat)
        (take k (test_call <$> seq 0 31)) = (wk, Ok tt) ∧
      (length (PyQueue.items (StreamingVideoWriter.frame_queue wk)) ≤ 30)%nat) ∧
  ((30 < length (test_call <$> seq 0 31))%nat → ∃ w' msgs,
      StreamingVideoWriter.calls (StreamingVideoWriter.__init__ (H := test_extern) 7%nat)
        (test_call <$> seq 0 31) = (w', Ok tt) ∧
      PyQueue.drain QueueEmpty 31 (StreamingVideoWriter.frame_queue w')
      = (msgs, PyQueue.mk 30 []) ∧
      Forall2 carries msgs (lastn 30 (test_call <$> seq 0 31))).
Proof.
  apply (bounded_channels_keep_the_newest (H := test_extern));
    [ reflexivity | reflexivity | simpl; lia | | reflexivity | reflexivity | simpl; lia ].
  apply Forall2_fmap, Forall_Forall2_diag, Forall_forall.
  intros i Hi. apply elem_of_seq in Hi. unfold decodes, test_buffer, test_chunk.
  reflexivity.
Defined.

(** ** C2, C10: the RTMP writer around a dead or absent pipe *)
Section RtmpWriter.
Context `{Extern}.
Import RTMPStreamWriter.

(** The guard of [__call__]: nothing is done unless the writer is active
    and holds a process. *)
Lemma call_guarded (w : t) (frame : ndarray) (fmt : string) (pipe : pipe_answer) :
  is_active w = false ∨ process w = None →
  __call__ w frame fmt pipe = (w, Ok tt).
Proof.
  intros [Hoff | Hnone]; unfold __call__.
  - rewrite Hoff. reflexivity.
  - rewrite Hnone. destruct (is_active w); reflexivity.
Qed.

Lemma calls_guarded (w : t) (cs : list frame_call) :
  is_active w = false ∨ process w = None → calls w cs = (w, Ok tt).
Proof.
  intros Hguard. induction cs as [| c cs IH]; simpl; [reflexivity |].
  unfold call. rewrite call_guarded by exact Hguard. exact IH.
Qed.

(** The pipe refuses the frame with [e], at the write or at the flush. *)
Definition pipe_fails_with (pipe : pipe_answer) (e : exn) : Prop :=
  pipe = WriteRaises e ∨ pipe = FlushRaises e.

(** C2. When the write (or the flush) of a frame to the encoder pipe fails
    with BrokenPipeError or another OSError, [RTMPStreamWriter.__call__]
    returns normally and leaves [is_active] false; from then on every run
    of further calls returns normally too and leaves the writer, the record
    of what the pipe received included, exactly as it was. *)
Theorem rtmp_write_failure_deactivates
    (w : t) (p : Popen) (frame : ndarray) (fmt : string) (pipe : pipe_answer) (e : exn) :
  is_active w = true →
  process w = Some p →
  pipe_fails_with pipe e →
  is_OSError e = true →
  ∃ w1,
    __call__ w frame fmt pipe = (w1, Ok tt) ∧
    is_active w1 = false ∧
    ∀ later : list frame_call, calls w1 later = (w1, Ok tt).
Proof.
  intros Hact Hproc Hfail Hos. unfold __call__. rewrite Hact, Hproc.
  destruct Hfail as [-> | ->]; simpl; rewrite Hos;
    (eexists; split; [reflexivity | split; [reflexivity |]]);
    intros later; apply calls_guarded; left; reflexivity.
Qed.

(** The state of a writer on which [start] has not succeeded, or on which
    [close] has completed. *)
Definition not_streaming (w : t) : Prop :=
  (∃ url wd ht fps, w = __init__ url wd ht fps) ∨
  (∃ url wd ht fps e w', start (__init__ url wd ht fps) (Some e) = (w', Raise e) ∧ w = w') ∨
  (∃ w0 env, close w0 env = (w, Ok tt)).

Lemma close_deactivates (w0 : t) (env : close_env) (w : t) (r : result unit) :
  close w0 env = (w, r) → is_active w = false ∧ (r = Ok tt → process w = None).
Proof.
  unfold close. simpl. destruct (process w0) as [p |] eqn:Hp; simpl.
  - destruct (stdin_close_raises env) as [e |]; [| destruct (wait_raises env) as [e |]];
      simpl; try destruct (is_TimeoutExpired e);
      intros [= <- <-]; split; try reflexivity; try discriminate.
  - intros [= <- <-]. split; [reflexivity | intros _; exact Hp].
Qed.

(** C10. A call of [RTMPStreamWriter.__call__] on a writer that was only
    constructed, whose [start] raised, or whose [close] has returned -- more
    generally on any writer that is inactive or holds no process -- returns
    at once: it does not raise and the writer, with the record of what its
    pipe received, is unchanged. *)
Theorem rtmp_write_outside_streaming_is_noop
    (w : t) (frame : ndarray) (fmt : string) (pipe : pipe_answer) :
  not_streaming w ∨ is_active w = false ∨ process w = None →
  __call__ w frame fmt pipe = (w, Ok tt).
Proof.
  intros [Hstate | Hguard]; [| apply call_guarded, Hguard].
  apply call_guarded.
  destruct Hstate as [(url & wd & ht & fps & ->) | [Hstart | (w0 & env & Hclose)]].
  - left. reflexivity.
  - destruct Hstart as (url & wd & ht & fps & e & w' & Hstart & ->).
    simpl in Hstart. injection Hstart as <-. left. reflexivity.
  - left. apply (close_deactivates w0 env w (Ok tt) Hclose).
Qed.

End RtmpWriter.

(** The writer of a session after a [start] that found ffmpeg. *)
Definition started_writer : RTMPStreamWriter.t :=
  fst (RTMPStreamWriter.start (RTMPStreamWriter.new "rtmp://localhost/live/s1"%string) None).

Definition clean_exit : RTMPStreamWriter.close_env :=
  RTMPStreamWriter.mkCloseEnv None None.

(** A broken pipe on the first frame of a started writer. *)
Lemma rtmp_write_failure_deactivates_witness :
  ∃ w1,
    RTMPStreamWriter.__call__ (H := test_extern) started_writer (test_frame 0) "rgb"%string
      (RTMPStreamWriter.WriteRaises BrokenPipeError) = (w1, Ok tt) ∧
    RTMPStreamWriter.is_active w1 = false ∧
    ∀ later : list (RTMPStreamWriter.frame_call (H := test_extern)),
      RTMPStreamWriter.calls w1 later = (w1, Ok tt).
Proof.
  apply (rtmp_write_failure_deactivates (H := test_extern) started_writer
           (RTMPStreamWriter.mkPopen (RTMPStreamWriter.ffmpeg_cmd
              (RTMPStreamWriter.new "rtmp://localhost/live/s1"%string)) [] false false false)
           (test_frame 0) "rgb"%string
           (RTMPStreamWriter.WriteRaises BrokenPipeError) BrokenPipeError);
    [ reflexivity | reflexivity | left; reflexivity | reflexivity ].
Defined.

(** A frame offered after [close] has returned. *)
Lemma rtmp_write_outside_streaming_is_noop_witness :
  RTMPStreamWriter.__call__ (H := test_extern)
    (fst (RTMPStreamWriter.close started_writer clean_exit)) (test_frame 0) "rgb"%string
    RTMPStreamWriter.Accepts
  = (fst (RTMPStreamWriter.close started_writer clean_exit), Ok tt).
Proof.
  apply (rtmp_write_outside_streaming_is_noop (H := test_extern)).
  left. right. right. exists started_writer, clean_exit. reflexivity.
Defined.

(** ** C7, C9: closing the channel writer *)
Section ChannelWriter.
Context `{Extern}.
Import StreamingVideoWriter.

(** C7. When the frame queue is full, [StreamingVideoWriter.close] returns
    normally, the end marker is not enqueued, and the queue holds exactly
    what it held before; only [is_active] changes, to false. *)
Theorem close_on_full_queue_drops_marker (w : t) :
  PyQueue.full (frame_queue w) = true →
  ∃ w1,
    close w = (w1, Ok tt) ∧
    frame_queue w1 = frame_queue w ∧
    is_active w1 = false ∧
    websocket w1 = websocket w.
Proof.
  intros Hfull. unfold close. simpl.
  rewrite (put_nowait_full QueueFull _ EndMsg Hfull). simpl.
  eexists. split; [reflexivity |]. repeat split.
Qed.

Lemma calls_inactive (w : t) (cs : list frame_call) :
  is_active w = false → calls w cs = (w, Ok tt).
Proof.
  intros Hoff. induction cs as [| c cs IH]; simpl; [reflexivity |].
  unfold call, __call__. rewrite Hoff. simpl. exact IH.
Qed.

Lemma close_returns (w : t) :
  ∃ w1, close w = (w1, Ok tt) ∧ is_active w1 = false ∧
        (PyQueue.full (frame_queue w) = false →
         PyQueue.items (frame_queue w1) = PyQueue.items (frame_queue w) ++ [EndMsg]) ∧
        (PyQueue.full (frame_queue w) = true → frame_queue w1 = frame_queue w).
Proof.
  unfold close, PyQueue.put_nowait. simpl.
  destruct (PyQueue.full (frame_queue w)); simpl;
    (eexists; split; [reflexivity |]); repeat split; try discriminate; auto.
Qed.

(** C9. [StreamingVideoWriter.close] always returns normally, and on the
    writer it leaves every run of further [__call__]s returns normally
    without changing the writer, so nothing is enqueued after [close]; when
    the end marker was enqueued (the queue had room), it is the last element
    of the queue, and it still is after any such run. *)
Theorem no_frame_after_close (w : t) :
  ∃ w1,
    close w = (w1, Ok tt) ∧
    (∀ (frame : ndarray) (fmt : string) (now now_again : float),
        __call__ w1 frame fmt now now_again = (w1, Ok tt)) ∧
    (∀ cs : list frame_call, calls w1 cs = (w1, Ok tt)) ∧
    (PyQueue.full (frame_queue w) = false →
     PyQueue.items (frame_queue w1) = PyQueue.items (frame_queue w) ++ [EndMsg] ∧
     ∀ cs : list frame_call,
       last (PyQueue.items (frame_queue (fst (calls w1 cs)))) = Some EndMsg).
Proof.
  destruct (close_returns w) as (w1 & Hclose & Hoff & Hroom & _).
  exists w1. split; [exact Hclose |]. split; [| split].
  - intros frame fmt now now_again. unfold __call__. rewrite Hoff. reflexivity.
  - intros cs. apply calls_inactive, Hoff.
  - intros Hfree. split; [apply Hroom, Hfree |].
    intros cs. rewrite calls_inactive by exact Hoff. simpl.
    rewrite (Hroom Hfree). apply last_snoc.
Qed.

End ChannelWriter.

(** Scenario B of the specification: 40 frames into a fresh writer that
    nobody drains, then [close]. *)
Definition writer_after_40_frames : StreamingVideoWriter.t (H := test_extern) :=
  fst (StreamingVideoWriter.calls (StreamingVideoWriter.__init__ (H := test_extern) 7%nat)
         (test_call <$> seq 0 40)).

Lemma close_on_full_queue_drops_marker_witness :
  ∃ w1,
    StreamingVideoWriter.close writer_after_40_frames = (w1, Ok tt) ∧
    StreamingVideoWriter.frame_queue w1
    = StreamingVideoWriter.frame_queue writer_after_40_frames ∧
    StreamingVideoWriter.is_active w1 = false ∧
    StreamingVideoWriter.websocket w1
    = StreamingVideoWriter.websocket writer_after_40_frames.
Proof.
  apply (close_on_full_queue_drops_marker (H := test_extern) writer_after_40_frames).
  vm_compute. reflexivity.
Defined.

(** ** Concrete sessions *)

Definition create_ok : TalkingHeadRTMPService.create_env :=
  TalkingHeadRTMPService.mkCreateEnv None None None None.

Definition device_found : AudioCapture.start_env := AudioCapture.mkStartEnv None None.

Definition device_missing : AudioCapture.start_env :=
  AudioCapture.mkStartEnv (Some (OSError "[Errno -9996] Invalid input device"%string)) None.

Definition capture_released : AudioCapture.stop_env := AudioCapture.mkStopEnv None None None.

Definition request_s1 : RtmpApp.StreamRequest :=
  RtmpApp.mkRequest "avatar.png"%string "rtmp://localhost/live/s1"%string.

Definition empty_service : TalkingHeadRTMPService.t :=
  TalkingHeadRTMPService.__init__ "cfg.pkl"%string "checkpoints"%string.

(** The service after a successful [POST /start_stream/s1]. *)
Definition service_with_s1 : TalkingHeadRTMPService.t :=
  fst (RtmpApp.start_stream empty_service "s1"%string request_s1
         (RtmpApp.mkStartEnv create_ok
            (TalkingHeadRTMPService.mkProcessingEnv device_found None))).

(** Teardown answers: everything closes cleanly, and the worker either
    ends within the five seconds of [join] or is still inside [run_chunk]. *)
Definition stop_clean : TalkingHeadRTMPService.stop_env :=
  TalkingHeadRTMPService.mkStopEnv capture_released true None clean_exit.

Definition stop_with_busy_worker : TalkingHeadRTMPService.stop_env :=
  TalkingHeadRTMPService.mkStopEnv capture_released false None clean_exit.

(** ** C3, C4: teardown of a session of the RTMP service *)
Section Teardown.
Import TalkingHeadRTMPService.

Definition worker_exited (s : stream_entry) : Prop :=
  match audio_thread s with
  | Some th => Thread.alive th = false
  | None => True
  end.

(** The worker has exited, or [join] gave up on it after its timeout. *)
Definition worker_joined (env : stop_env) (s : stream_entry) : Prop :=
  match audio_thread s with
  | Some th => Thread.alive th = false ∨ thread_ends_in_time env = false
  | None => True
  end.

Definition engine_closed (s : stream_entry) : Prop :=
  StreamSDK.closed (sdk s) = true.

Definition adapter_closed (s : stream_entry) : Prop :=
  RTMPStreamWriter.is_active (rtmp_writer s) = false ∧
  RTMPStreamWriter.process (rtmp_writer s) = None.

(** C3 as the specification words it: whenever [stop_stream] takes the
    entry out of the registry, the worker has exited and engine and adapter
    are closed. *)
Definition removed_only_after_worker_exit (svc : t) (stream_id : string) (env : stop_env)
  : Prop :=
  ∀ svc1 touched r,
    stop_stream svc stream_id env = (svc1, touched, r) →
    is_Some (active_streams svc !! stream_id) →
    active_streams svc1 !! stream_id = None →
    ∃ s, touched = Some s ∧ worker_exited s ∧ engine_closed s ∧ adapter_closed s.

Lemma join_outcome (th th1 : Thread.t) (ends_in_time : bool) :
  Thread.join th ends_in_time = (th1, Ok tt) →
  Thread.alive th1 = false ∨ ends_in_time = false.
Proof.
  unfold Thread.join. destruct th as [started alive]. simpl.
  destruct started; simpl; [| discriminate].
  destruct alive; intros [= <-]; simpl; [| left; reflexivity].
  destruct ends_in_time; auto.
Qed.

Lemma stop_capture_deactivates (c c1 : AudioCapture.t) env r :
  AudioCapture.stop_capture c env = (c1, r) → AudioCapture.is_active c1 = false.
Proof.
  unfold AudioCapture.stop_capture. simpl.
  repeat case_match; intros [= <- <-]; reflexivity.
Qed.

Lemma sdk_close_closes (sdk sdk1 : StreamSDK.t) raises :
  StreamSDK.close sdk raises = (sdk1, Ok tt) → StreamSDK.closed sdk1 = true.
Proof.
  unfold StreamSDK.close. destruct raises; [discriminate |].
  intros [= <-]. reflexivity.
Qed.

(** The shape of every run of [stop_stream] on a registered id: either it
    raised and the entry is still registered, or it went through all the
    steps of the teardown before the entry was deleted. *)
Lemma stop_stream_registered (svc : t) (stream_id : string) (env : stop_env)
    (stream : stream_entry) svc1 touched r :
  active_streams svc !! stream_id = Some stream →
  stop_stream svc stream_id env = (svc1, touched, r) →
  (∃ e s, r = Raise e ∧ touched = Some s ∧ active_streams svc1 !! stream_id = Some s) ∨
  (r = Ok tt ∧
   svc1 = set_active_streams svc (delete stream_id (active_streams svc)) ∧
   ∃ s, touched = Some s ∧ active s = false ∧
        AudioCapture.is_active (audio_capture s) = false ∧
        worker_joined env s ∧ engine_closed s ∧ adapter_closed s).
Proof.
  intros Hin. unfold stop_stream. rewrite Hin.
  destruct (AudioCapture.stop_capture _ _) as [cap1 [[] | e]] eqn:Hcap;
    [| intros [= <- <- <-]; left; do 2 eexists;
       repeat split; simpl; apply lookup_insert_eq].
  apply stop_capture_deactivates in Hcap.
  simpl.
  destruct (audio_thread stream) as [th |] eqn:Hth.
  - destruct (Thread.join th (thread_ends_in_time env)) as [th1 [[] | e]] eqn:Hjoin;
      [| intros [= <- <- <-]; left; do 2 eexists;
         repeat split; simpl; apply lookup_insert_eq].
    apply join_outcome in Hjoin.
    destruct (StreamSDK.close _ _) as [sdk1 [[] | e]] eqn:Hsdk;
      [| intros [= <- <- <-]; left; do 2 eexists;
         repeat split; simpl; apply lookup_insert_eq].
    apply sdk_close_closes in Hsdk.
    destruct (RTMPStreamWriter.close _ _) as [w1 [[] | e]] eqn:Hw;
      [| intros [= <- <- <-]; left; do 2 eexists;
         repeat split; simpl; apply lookup_insert_eq].
    apply close_deactivates in Hw. destruct Hw as [Hoff Hnone].
    intros [= <- <- <-]. right. split; [reflexivity |]. split; [reflexivity |].
    eexists. split; [reflexivity |]. unfold worker_joined, engine_closed, adapter_closed.
    simpl. repeat split; auto.
  - destruct (StreamSDK.close _ _) as [sdk1 [[] | e]] eqn:Hsdk;
      [| intros [= <- <- <-]; left; do 2 eexists;
         repeat split; simpl; apply lookup_insert_eq].
    apply sdk_close_closes in Hsdk.
    destruct (RTMPStreamWriter.close _ _) as [w1 [[] | e]] eqn:Hw;
      [| intros [= <- <- <-]; left; do 2 eexists;
         repeat split; simpl; apply lookup_insert_eq].
    apply close_deactivates in Hw. destruct Hw as [Hoff Hnone].
    intros [= <- <- <-]. right. split; [reflexivity |]. split; [reflexivity |].
    eexists. split; [reflexivity |]. unfold worker_joined, engine_closed, adapter_closed.
    simpl. rewrite Hth. repeat split; auto.
Qed.

(** C3, amended. [stop_stream] takes a registered entry out of the registry
    only in a run that returns normally, and then only after it has cleared
    the entry's [active] flag, stopped the capture, joined the worker for at
    most five seconds (so the worker has exited or the join timed out), and
    both [sdk.close()] and [rtmp_writer.close()] have returned, leaving the
    engine closed and the writer inactive and without process. *)
Theorem stop_stream_removes_after_bounded_teardown
    (svc : t) (stream_id : string) (env : stop_env) svc1 touched r :
  stop_stream svc stream_id env = (svc1, touched, r) →
  is_Some (active_streams svc !! stream_id) →
  active_streams svc1 !! stream_id = None →
  r = Ok tt ∧
  ∃ s, touched = Some s ∧ active s = false ∧
       AudioCapture.is_active (audio_capture s) = false ∧
       worker_joined env s ∧ engine_closed s ∧ adapter_closed s.
Proof.
  intros Hstop [stream Hin] Hgone.
  destruct (stop_stream_registered svc stream_id env stream svc1 touched r Hin Hstop)
    as [(e & s & _ & _ & Hstill) | (Hr & _ & Hs)].
  - congruence.
  - split; [exact Hr | exact Hs].
Qed.

End Teardown.

(** What [stop_stream] returns for session s1 with a worker that ends in
    time, and with one that is still busy when [join] gives up. *)
Definition stopped_s1 :=
  TalkingHeadRTMPService.stop_stream service_with_s1 "s1"%string stop_clean.

Definition stopped_s1_busy_worker :=
  TalkingHeadRTMPService.stop_stream service_with_s1 "s1"%string stop_with_busy_worker.

(** The busy worker, step by step: the call returns normally, s1 is gone
    from the registry, the engine and the writer are closed, and the thread
    of the entry is still alive. *)
Example busy_worker_outlives_its_entry :
  snd stopped_s1_busy_worker = Ok tt ∧
  TalkingHeadRTMPService.active_streams (fst (fst stopped_s1_busy_worker)) !! "s1"%string
  = None ∧
  (TalkingHeadRTMPService.audio_thread <$> snd (fst stopped_s1_busy_worker))
  = Some (Some (Thread.mk true true)) ∧
  (StreamSDK.closed ∘ TalkingHeadRTMPService.sdk <$> snd (fst stopped_s1_busy_worker))
  = Some true.
Proof. vm_compute. repeat split. Qed.

(** C3 fails as worded: with a worker that does not end within the five
    seconds of [join], s1 is removed while its worker is alive. *)
Lemma removed_while_worker_alive :
  ¬ removed_only_after_worker_exit service_with_s1 "s1"%string stop_with_busy_worker.
Proof.
  intros Hclaim.
  destruct (Hclaim (fst (fst stopped_s1_busy_worker)) (snd (fst stopped_s1_busy_worker))
                   (snd stopped_s1_busy_worker))
    as (s & Htouched & Hexited & _).
  - unfold stopped_s1_busy_worker.
    destruct (TalkingHeadRTMPService.stop_stream _ _ _) as [[? ?] ?]. reflexivity.
  - vm_compute. eexists. reflexivity.
  - vm_compute. reflexivity.
  - vm_compute in Htouched. injection Htouched as <-.
    vm_compute in Hexited. discriminate.
Qed.

Lemma stop_stream_removes_after_bounded_teardown_witness :
  snd stopped_s1 = Ok tt ∧
  ∃ s, snd (fst stopped_s1) = Some s ∧
       TalkingHeadRTMPService.active s = false ∧
       AudioCapture.is_active (TalkingHeadRTMPService.audio_capture s) = false ∧
       worker_joined stop_clean s ∧ engine_closed s ∧ adapter_closed s.
Proof.
  apply (stop_stream_removes_after_bounded_teardown service_with_s1 "s1"%string stop_clean
           (fst (fst stopped_s1))).
  - unfold stopped_s1.
    destruct (TalkingHeadRTMPService.stop_stream _ _ _) as [[? ?] ?]. reflexivity.
  - vm_compute. eexists. reflexivity.
  - vm_compute. reflexivity.
Defined.

(** ** C4: stopping twice *)
Section StopTwice.
Context `{Extern}.

Lemma stop_stream_done (svc : TalkingHeadRTMPService.t) (stream_id : string) env svc1 touched :
  TalkingHeadRTMPService.stop_stream svc stream_id env = (svc1, touched, Ok tt) →
  TalkingHeadRTMPService.active_streams svc1 !! stream_id = None.
Proof.
  intros Hstop.
  destruct (TalkingHeadRTMPService.active_streams svc !! stream_id) as [stream |] eqn:Hin.
  - destruct (stop_stream_registered svc stream_id env stream svc1 touched (Ok tt) Hin Hstop)
      as [(e & s & Hr & _) | (_ & -> & _)]; [discriminate |].
    simpl. apply lookup_delete_eq.
  - unfold TalkingHeadRTMPService.stop_stream in Hstop. rewrite Hin in Hstop.
    injection Hstop as <- _. exact Hin.
Qed.

Lemma close_session_done (ws : TalkingHeadStreamingService.t) (session_id : string)
    raises ws1 touched :
  TalkingHeadStreamingService.close_session ws session_id raises = (ws1, touched, Ok tt) →
  TalkingHeadStreamingService.active_sessions ws1 !! session_id = None.
Proof.
  unfold TalkingHeadStreamingService.close_session.
  destruct (TalkingHeadStreamingService.active_sessions ws !! session_id)
    as [session |] eqn:Hin.
  - destruct (StreamSDK.close _ _) as [sdk1 [[] | e]]; [| discriminate].
    destruct (StreamingVideoWriter.close _) as [w1 [[] | e]]; [| discriminate].
    intros [= <- _]. simpl. apply lookup_delete_eq.
  - intros [= <- _]. exact Hin.
Qed.

(** C4. After a call of [TalkingHeadRTMPService.stop_stream] (resp.
    [TalkingHeadStreamingService.close_session]) that returned normally, a
    second call for the same id returns normally as well, whatever the
    outside would answer: the service and its registry are the same after
    it, and it touches no stream entry, hence no engine, capture or writer. *)
Theorem second_stop_is_noop
    (svc svc1 : TalkingHeadRTMPService.t) (stream_id : string)
    (env env' : TalkingHeadRTMPService.stop_env)
    (touched : option TalkingHeadRTMPService.stream_entry)
    (ws ws1 : TalkingHeadStreamingService.t) (session_id : string)
    (raises raises' : option exn)
    (wtouched : option TalkingHeadStreamingService.session_entry) :
  TalkingHeadRTMPService.stop_stream svc stream_id env = (svc1, touched, Ok tt) →
  TalkingHeadStreamingService.close_session ws session_id raises = (ws1, wtouched, Ok tt) →
  TalkingHeadRTMPService.stop_stream svc1 stream_id env' = (svc1, None, Ok tt) ∧
  TalkingHeadStreamingService.close_session ws1 session_id raises' = (ws1, None, Ok tt).
Proof.
  intros Hstop Hclose. split.
  - unfold TalkingHeadRTMPService.stop_stream.
    rewrite (stop_stream_done svc stream_id env svc1 touched Hstop). reflexivity.
  - unfold TalkingHeadStreamingService.close_session.
    rewrite (close_session_done ws session_id raises ws1 wtouched Hclose). reflexivity.
Qed.

End StopTwice.

(** The WebSocket service with one session, and what closing it returns. *)
Definition ws_service_with_session : TalkingHeadStreamingService.t (H := test_extern) :=
  fst (TalkingHeadStreamingService.create_session
         (TalkingHeadStreamingService.__init__ "cfg.pkl"%string "checkpoints"%string)
         "1730000000.25"%string "avatar.png"%string 7%nat None None).

Definition closed_session :=
  TalkingHeadStreamingService.close_session ws_service_with_session
    "1730000000.25"%string None.

Lemma second_stop_is_noop_witness :
  TalkingHeadRTMPService.stop_stream (fst (fst stopped_s1)) "s1"%string stop_with_busy_worker
  = (fst (fst stopped_s1), None, Ok tt) ∧
  TalkingHeadStreamingService.close_session (fst (fst closed_session))
    "1730000000.25"%string (Some (RuntimeError "engine already closed"%string))
  = (fst (fst closed_session), None, Ok tt).
Proof.
  apply (second_stop_is_noop (H := test_extern)
           service_with_s1 (fst (fst stopped_s1)) "s1"%string stop_clean stop_with_busy_worker
           (snd (fst stopped_s1))
           ws_service_with_session (fst (fst closed_session)) "1730000000.25"%string
           None (Some (RuntimeError "engine already closed"%string))
           (snd (fst closed_session))).
  - vm_compute. reflexivity.
  - vm_compute. reflexivity.
Defined.

(** ** C5: a capture device that cannot be opened *)
Section DeviceFailure.
Import TalkingHeadRTMPService.

(** C5 as the specification words it, in its two halves: [start_capture]
    raises when the device cannot be opened, and [POST /start_stream] then
    fails without registering the session. *)
Definition device_error_is_surfaced (c : AudioCapture.t) (env : AudioCapture.start_env)
  : Prop :=
  is_Some (AudioCapture.open_raises env) →
  ∃ c1 e, AudioCapture.start_capture c env = (c1, Raise e).

Definition session_creation_is_aborted (service : t) (stream_id : string)
    (request : RtmpApp.StreamRequest) (env : RtmpApp.start_env) : Prop :=
  is_Some (AudioCapture.open_raises (capture_start (RtmpApp.processing env))) →
  ∃ service1 e,
    RtmpApp.start_stream service stream_id request env = (service1, Raise e) ∧
    active_streams service1 !! stream_id = None.

(** [start_capture] never raises: its handler catches every exception. *)
Lemma start_capture_returns (c : AudioCapture.t) (env : AudioCapture.start_env) :
  ∃ c1, AudioCapture.start_capture c env = (c1, Ok tt).
Proof.
  unfold AudioCapture.start_capture.
  destruct (AudioCapture.open_raises env); [| destruct (AudioCapture.start_stream_raises env)];
    simpl; eexists; reflexivity.
Qed.

(** C5, amended. When the capture device cannot be opened,
    [AudioCapture.start_capture] does not raise: the error is caught and
    printed, and the capture is left as it was (no stream, not active).
    Session creation is not aborted: if the engine, ffmpeg and the worker
    thread start, [POST /start_stream] answers with its success message, and
    the session is registered as active with a started worker and an
    inactive capture. *)
Theorem device_failure_is_swallowed
    (c : AudioCapture.t) (service : t) (stream_id : string)
    (request : RtmpApp.StreamRequest) (env : RtmpApp.start_env) :
  is_Some (AudioCapture.open_raises (capture_start (RtmpApp.processing env))) →
  active_streams service !! stream_id = None →
  RtmpApp.create env = mkCreateEnv None None None None →
  thread_start_raises (RtmpApp.processing env) = None →
  AudioCapture.start_capture c (capture_start (RtmpApp.processing env)) = (c, Ok tt) ∧
  ∃ service1 s,
    RtmpApp.start_stream service stream_id request env
    = (service1,
       Ok (RtmpApp.Started ("Stream " +:+ stream_id +:+ " started successfully")
                           (RtmpApp.rtmp_url request))) ∧
    active_streams service1 !! stream_id = Some s ∧
    active s = true ∧
    audio_thread s = Some (Thread.mk true true) ∧
    AudioCapture.is_active (audio_capture s) = false ∧
    AudioCapture.stream (audio_capture s) = None.
Proof.
  intros [e He] Hfree Hcreate Hthread.
  assert (∀ c0, AudioCapture.start_capture c0 (capture_start (RtmpApp.processing env))
                = (c0, Ok tt)) as Hswallow.
  { intros c0. unfold AudioCapture.start_capture. rewrite He. reflexivity. }
  split; [apply Hswallow |].
  unfold RtmpApp.start_stream.
  rewrite bool_decide_eq_false_2 by (rewrite elem_of_dom, Hfree; apply is_Some_None).
  unfold create_stream. rewrite Hcreate. simpl.
  unfold start_stream_processing, store. simpl.
  rewrite lookup_insert_eq. simpl. rewrite Hswallow, Hthread. simpl.
  do 2 eexists. split; [reflexivity |]. simpl.
  rewrite lookup_insert_eq. repeat split.
Qed.

End DeviceFailure.

(** C5 fails as worded: with no input device, [start_capture] returns
    normally, and [POST /start_stream/s1] on the empty service succeeds. *)
Lemma device_failure_goes_unreported :
  ¬ device_error_is_surfaced (AudioCapture.mk 16000 1024 false None (PyQueue.new 100) false)
      device_missing ∧
  ¬ session_creation_is_aborted empty_service "s1"%string request_s1
      (RtmpApp.mkStartEnv create_ok
         (TalkingHeadRTMPService.mkProcessingEnv device_missing None)).
Proof.
  split.
  - intros Hclaim. destruct Hclaim as (c1 & e & Hraise).
    + vm_compute. eexists. reflexivity.
    + vm_compute in Hraise. discriminate.
  - intros Hclaim. destruct Hclaim as (service1 & e & Hraise & _).
    + vm_compute. eexists. reflexivity.
    + vm_compute in Hraise. discriminate.
Qed.

Lemma device_failure_is_swallowed_witness :
  AudioCapture.start_capture capturing device_missing = (capturing, Ok tt) ∧
  ∃ service1 s,
    RtmpApp.start_stream empty_service "s1"%string request_s1
      (RtmpApp.mkStartEnv create_ok
         (TalkingHeadRTMPService.mkProcessingEnv device_missing None))
    = (service1,
       Ok (RtmpApp.Started ("Stream " +:+ "s1" +:+ " started successfully")%string
                           (RtmpApp.rtmp_url request_s1))) ∧
    TalkingHeadRTMPService.active_streams service1 !! "s1"%string = Some s ∧
    TalkingHeadRTMPService.active s = true ∧
    TalkingHeadRTMPService.audio_thread s = Some (Thread.mk true true) ∧
    AudioCapture.is_active (TalkingHeadRTMPService.audio_capture s) = false ∧
    AudioCapture.stream (TalkingHeadRTMPService.audio_capture s) = None.
Proof.
  apply (device_failure_is_swallowed capturing empty_service "s1"%string request_s1
           (RtmpApp.mkStartEnv create_ok
              (TalkingHeadRTMPService.mkProcessingEnv device_missing None)));
    [ vm_compute; eexists; reflexivity | vm_compute; reflexivity
    | reflexivity | reflexivity ].
Defined.

(** ** C6, C8: the guards of the HTTP handlers *)
Section Guards.
Import TalkingHeadRTMPService.

(** C6. [POST /start_stream/{id}] for an id that is already registered
    raises the 400 error "Stream already exists" (the AlreadyExists of the
    specification) before anything is created: the service, and with it the
    entry registered under the id, is returned exactly as it was. *)
Theorem start_stream_rejects_registered_id
    (service : t) (stream_id : string) (request : RtmpApp.StreamRequest)
    (env : RtmpApp.start_env) :
  stream_id ∈ dom (active_streams service) →
  ∃ service1,
    RtmpApp.start_stream service stream_id request env
    = (service1, Raise (HTTPException 400 "Stream already exists")) ∧
    service1 = service ∧
    active_streams service1 !! stream_id = active_streams service !! stream_id.
Proof.
  intros Hin. unfold RtmpApp.start_stream.
  rewrite bool_decide_eq_true_2 by exact Hin.
  exists service. repeat split.
Qed.

(** C8. [DELETE /stop_stream/{id}] for an id that is not registered raises
    the 404 error "Stream not found" (the NotFound of the specification),
    and [GET /streams] answers afterwards what it answered before: the same
    ids and the same count. *)
Theorem stop_stream_rejects_unknown_id
    (service : t) (stream_id : string) (env : stop_env) :
  stream_id ∉ dom (active_streams service) →
  ∃ service1,
    RtmpApp.stop_stream service stream_id env
    = (service1, Raise (HTTPException 404 "Stream not found")) ∧
    RtmpApp.list_streams service1 = RtmpApp.list_streams service ∧
    dom (active_streams service1) = dom (active_streams service).
Proof.
  intros Hout. unfold RtmpApp.stop_stream.
  rewrite bool_decide_eq_false_2 by exact Hout. simpl.
  exists service. repeat split.
Qed.

End Guards.

Lemma start_stream_rejects_registered_id_witness :
  ∃ service1,
    RtmpApp.start_stream service_with_s1 "s1"%string
      (RtmpApp.mkRequest "other.png"%string "rtmp://localhost/live/other"%string)
      (RtmpApp.mkStartEnv create_ok
         (TalkingHeadRTMPService.mkProcessingEnv device_found None))
    = (service1, Raise (HTTPException 400 "Stream already exists")) ∧
    service1 = service_with_s1 ∧
    TalkingHeadRTMPService.active_streams service1 !! "s1"%string
    = TalkingHeadRTMPService.active_streams service_with_s1 !! "s1"%string.
Proof.
  apply (start_stream_rejects_registered_id service_with_s1 "s1"%string).
  apply elem_of_dom. vm_compute. eexists. reflexivity.
Defined.

Lemma stop_stream_rejects_unknown_id_witness :
  ∃ service1,
    RtmpApp.stop_stream service_with_s1 "s2"%string stop_clean
    = (service1, Raise (HTTPException 404 "Stream not found")) ∧
    RtmpApp.list_streams service1 = RtmpApp.list_streams service_with_s1 ∧
    dom (TalkingHeadRTMPService.active_streams service1)
    = dom (TalkingHeadRTMPService.active_streams service_with_s1).
Proof.
  apply (stop_stream_rejects_unknown_id service_with_s1 "s2"%string stop_clean).
  apply not_elem_of_dom. vm_compute. reflexivity.
Defined.

(** ** The end-to-end scenarios of the specification, run on the model *)

(** Scenario A: 150 chunks into the audio queue with no worker draining
    it; 100 are retained, and the 50 oldest are the ones dropped. *)
Example scenario_A_150_chunks :
  fst (AudioCapture.drain 101
         (fst (AudioCapture.callbacks capturing (test_buffer <$> seq 0 150))))
  = test_chunk <$> seq 50 100.
Proof. vm_compute. reflexivity. Qed.

(** Scenario B: 40 frames into the frame queue with no consumer; the queue
    holds the frames 10 to 39, the first 30 stamped at their first clock
    reading and the rest at their second, and [close] leaves it so. *)
Example scenario_B_40_frames :
  PyQueue.items (StreamingVideoWriter.frame_queue writer_after_40_frames)
  = (λ i, StreamingVideoWriter.FrameMsg (H := test_extern)
            (StreamingVideoWriter.frame_base64 (H := test_extern) (test_frame i) "rgb"%string)
            (if (i <? 30)%nat then 2 * Z.of_nat i else 2 * Z.of_nat i + 1))
    <$> seq 10 30
  ∧ StreamingVideoWriter.close writer_after_40_frames
    = (StreamingVideoWriter.set_is_active writer_after_40_frames false, Ok tt).
Proof. vm_compute. split; reflexivity. Qed.

(** Scenario C: stopping an unknown id on a service that runs s1. *)
Example scenario_C_unknown_id :
  RtmpApp.stop_stream service_with_s1 "ghost"%string stop_clean
  = (service_with_s1, Raise (HTTPException 404 "Stream not found"))
  ∧ RtmpApp.list_streams service_with_s1 = RtmpApp.Streams ["s1"%string] 1.
Proof. vm_compute. split; reflexivity. Qed.

(** ** After [close], only end markers can still be enqueued *)
Section AfterClose.
Context `{Extern}.
Import StreamingVideoWriter.

(** What can be done to a writer: a frame from the engine, or [close]. *)
Inductive op : Type :=
| Frame (c : frame_call)
| Close.

Fixpoint run (w : t) (ops : list op) : t :=
  match ops with
  | [] => w
  | Frame c :: rest => run (fst (call w c)) rest
  | Close :: rest => run (fst (close w)) rest
  end.

(** Whatever follows a [close], frames or further [close]s, the queue only
    grows by end markers: the last element pushed is never a frame. *)
Lemma only_end_markers_after_close (w : t) (ops : list op) :
  is_active w = false →
  is_active (run w ops) = false ∧
  ∃ k : nat,
    PyQueue.items (frame_queue (run w ops))
    = PyQueue.items (frame_queue w) ++ replicate k EndMsg.
Proof.
  revert w. induction ops as [| [c |] ops IH]; intros w Hoff; simpl.
  - split; [exact Hoff |]. exists 0%nat. simpl. rewrite app_nil_r. reflexivity.
  - assert (call w c = (w, Ok tt)) as ->
      by (unfold call, __call__; rewrite Hoff; reflexivity).
    apply IH, Hoff.
  - destruct (close_returns w) as (w1 & -> & Hoff1 & Hroom & Hfull). simpl.
    destruct (IH w1 Hoff1) as (Hoff2 & k & Hitems).
    split; [exact Hoff2 |].
    destruct (PyQueue.full (frame_queue w)) eqn:Hf.
    + exists k. rewrite Hitems, (Hfull eq_refl). reflexivity.
    + exists (S k). rewrite Hitems, (Hroom eq_refl), <- app_assoc. reflexivity.
Qed.

End AfterClose.

(** * Further properties of the two files *)

(** ** RTMPStreamWriter: what reaches the pipe *)
Section RtmpPipe.
Context `{Extern}.
Import RTMPStreamWriter.

(** The frame [__call__] hands to [stdin.write]: converted when [fmt] is
    not "rgb", then resized when its shape is not the configured one. *)
Definition prepared (self : t) (frame_rgb : ndarray) (fmt : string) : ndarray :=
  let frame_rgb1 :=
    if negb (String.eqb fmt "rgb") then cvtColor_BGR2RGB frame_rgb else frame_rgb in
  if negb (bool_decide (shape2 frame_rgb1 = (height self, width self)))
  then resize frame_rgb1 (width self, height self) else frame_rgb1.

Definition accepted (c : frame_call) : Prop := pipe c = Accepts.

(** The writer that streams: active, with process [p]. *)
Definition streaming (w : t) (p : Popen) : Prop :=
  is_active w = true ∧ process w = Some p.

Lemma call_accepted (w : t) (p : Popen) (c : frame_call) :
  streaming w p → accepted c →
  call w c
  = (set_process w (Some (stdin_write p (tobytes (prepared w (frame_rgb c) (fmt c))))),
     Ok tt).
Proof.
  intros [Hact Hproc] Hacc. unfold call, __call__, prepared.
  rewrite Hact, Hproc, Hacc. reflexivity.
Qed.

(** X1. As long as the pipe accepts, every call writes one frame, nothing is
    skipped or reordered, and the writer stays active: the pipe has received
    what it had before, followed by the prepared bytes of each call in call
    order.  Frames that already are "rgb" and of the configured shape go out
    byte for byte. *)
Theorem rtmp_frames_reach_pipe_in_order (w : t) (p : Popen) (cs : list frame_call) :
  streaming w p →
  Forall accepted cs →
  ∃ p1,
    calls w cs = (set_process w (Some p1), Ok tt) ∧
    stdin_written p1
    = stdin_written p ++ ((λ c, tobytes (prepared w (frame_rgb c) (fmt c))) <$> cs) ∧
    (Forall (λ c, fmt c = "rgb"%string ∧ shape2 (frame_rgb c) = (height w, width w)) cs →
     stdin_written p1 = stdin_written p ++ ((λ c, tobytes (frame_rgb c)) <$> cs)) ∧
    args p1 = args p ∧ stdin_closed p1 = stdin_closed p.
Proof.
  intros Hs Hacc. revert w p Hs.
  induction Hacc as [| c cs Hc _ IH]; intros w p Hs.
  - exists p. simpl. rewrite !app_nil_r. destruct Hs as [Hact Hproc].
    repeat split; try reflexivity.
    rewrite <- Hproc. destruct w. reflexivity.
  - simpl. rewrite (call_accepted w p c Hs Hc).
    set (p' := stdin_write p (tobytes (prepared w (frame_rgb c) (fmt c)))).
    destruct (IH (set_process w (Some p')) p') as (p1 & Hrun & Hlog & Hraw & Hargs & Hcl).
    { destruct Hs as [Hact _]. split; [exact Hact | reflexivity]. }
    exists p1. split; [exact Hrun |]. split; [| split; [| split]].
    + rewrite Hlog. simpl. rewrite <- app_assoc. reflexivity.
    + intros Hplain. apply Forall_cons in Hplain as [[Hfmt Hshape] Hrest].
      rewrite (Hraw Hrest). simpl. rewrite <- app_assoc. simpl.
      unfold prepared. rewrite Hfmt. simpl. rewrite Hshape.
      rewrite bool_decide_eq_true_2 by reflexivity. reflexivity.
    + rewrite Hargs. reflexivity.
    + rewrite Hcl. reflexivity.
Qed.

(** X2. An exception of the pipe outside the OSError family is not caught: the
    call raises it, and the writer stays active with its process, so the
    next frame is attempted again. *)
Theorem rtmp_write_other_error_propagates
    (w : t) (p : Popen) (frame : ndarray) (fm : string) (answer : pipe_answer) (e : exn) :
  streaming w p →
  pipe_fails_with answer e →
  is_OSError e = false →
  ∃ w1 p1,
    __call__ w frame fm answer = (w1, Raise e) ∧ streaming w1 p1 ∧
    call w1 (mkCall frame fm Accepts)
    = (set_process w1 (Some (stdin_write p1 (tobytes (prepared w1 frame fm)))), Ok tt).
Proof.
  intros Hs Hfail Hos. pose proof Hs as [Hact Hproc].
  unfold __call__. rewrite Hact, Hproc.
  destruct Hfail as [-> | ->]; simpl; rewrite Hos.
  - exists w, p. split; [reflexivity |]. split; [exact Hs |].
    exact (call_accepted w p (mkCall frame fm Accepts) Hs eq_refl).
  - set (p' := stdin_write p (tobytes (prepared w frame fm))).
    assert (streaming (set_process w (Some p')) p') as Hs1
      by (split; [exact Hact | reflexivity]).
    exists (set_process w (Some p')), p'. split; [reflexivity |]. split; [exact Hs1 |].
    exact (call_accepted _ p' (mkCall frame fm Accepts) Hs1 eq_refl).
Qed.

(** X3. How [close] can end.  It always leaves the writer inactive.  It returns
    normally with the process handle dropped, also when [wait] timed out and
    the child had to be killed; it raises only an exception other than
    TimeoutExpired that [stdin.close()] or [wait] raised, and then the handle
    is kept. *)
Theorem rtmp_close_outcomes (w w1 : t) (env : close_env) (r : result unit) :
  close w env = (w1, r) →
  is_active w1 = false ∧
  match r with
  | Ok _ => process w1 = None
  | Raise e =>
      is_TimeoutExpired e = false ∧ is_Some (process w) ∧ is_Some (process w1) ∧
      (stdin_close_raises env = Some e ∨
       (stdin_close_raises env = None ∧ wait_raises env = Some e))
  end.
Proof.
  unfold close. simpl. destruct (process w) as [p |] eqn:Hp; simpl.
  - destruct (stdin_close_raises env) as [e |] eqn:Hc;
      [| destruct (wait_raises env) as [e |] eqn:Hw]; simpl;
      try destruct (is_TimeoutExpired e) eqn:Ht;
      intros [= <- <-]; simpl; repeat split; eauto.
  - intros [= <- <-]. simpl. split; [reflexivity | exact Hp].
Qed.

(** X4. Once [close] has returned, closing again changes nothing and asks
    nothing of the child. *)
Theorem rtmp_close_twice (w w1 : t) (env env' : close_env) :
  close w env = (w1, Ok tt) → close w1 env' = (w1, Ok tt).
Proof.
  intros Hclose. apply close_deactivates in Hclose as [Hoff Hnone].
  specialize (Hnone eq_refl).
  unfold close. simpl. rewrite Hnone. destruct w1. simpl in *. subst. reflexivity.
Qed.

End RtmpPipe.

Definition started_process : RTMPStreamWriter.Popen :=
  RTMPStreamWriter.mkPopen
    (RTMPStreamWriter.ffmpeg_cmd (RTMPStreamWriter.new "rtmp://localhost/live/s1"%string))
    [] false false false.

Definition test_rtmp_call (i : nat) : RTMPStreamWriter.frame_call (H := test_extern) :=
  RTMPStreamWriter.mkCall (H := test_extern) (test_frame i) "rgb"%string
    RTMPStreamWriter.Accepts.

(** Three frames through a started writer. *)
Lemma rtmp_frames_reach_pipe_in_order_witness :
  ∃ p1,
    RTMPStreamWriter.calls started_writer (test_rtmp_call <$> seq 0 3)
    = (RTMPStreamWriter.set_process started_writer (Some p1), Ok tt) ∧
    RTMPStreamWriter.stdin_written p1
    = RTMPStreamWriter.stdin_written started_process ++
      ((λ c, tobytes (prepared started_writer (RTMPStreamWriter.frame_rgb c)
                        (RTMPStreamWriter.fmt c))) <$> (test_rtmp_call <$> seq 0 3)) ∧
    (Forall (λ c, RTMPStreamWriter.fmt c = "rgb"%string ∧
                  shape2 (RTMPStreamWriter.frame_rgb c)
                  = (RTMPStreamWriter.height started_writer,
                     RTMPStreamWriter.width started_writer))
            (test_rtmp_call <$> seq 0 3) →
     RTMPStreamWriter.stdin_written p1
     = RTMPStreamWriter.stdin_written started_process ++
       ((λ c, tobytes (RTMPStreamWriter.frame_rgb c)) <$> (test_rtmp_call <$> seq 0 3))) ∧
    RTMPStreamWriter.args p1 = RTMPStreamWriter.args started_process ∧
    RTMPStreamWriter.stdin_closed p1 = RTMPStreamWriter.stdin_closed started_process.
Proof.
  apply (rtmp_frames_reach_pipe_in_order (H := test_extern) started_writer started_process).
  - split; reflexivity.
  - simpl. repeat constructor.
Defined.

(** A write on a pipe object that was closed under the writer's feet. *)
Lemma rtmp_write_other_error_propagates_witness :
  ∃ w1 p1,
    RTMPStreamWriter.__call__ (H := test_extern) started_writer (test_frame 0) "rgb"%string
      (RTMPStreamWriter.WriteRaises (ValueError "write to closed file"%string))
    = (w1, Raise (ValueError "write to closed file"%string)) ∧
    streaming w1 p1 ∧
    RTMPStreamWriter.call w1
      (RTMPStreamWriter.mkCall (H := test_extern) (test_frame 0) "rgb"%string
         RTMPStreamWriter.Accepts)
    = (RTMPStreamWriter.set_process w1
         (Some (RTMPStreamWriter.stdin_write p1
                  (tobytes (prepared w1 (test_frame 0) "rgb"%string)))), Ok tt).
Proof.
  apply (rtmp_write_other_error_propagates (H := test_extern) started_writer started_process).
  - split; reflexivity.
  - left. reflexivity.
  - reflexivity.
Defined.

Definition child_hangs : RTMPStreamWriter.close_env :=
  RTMPStreamWriter.mkCloseEnv None (Some TimeoutExpired).

(** The child that does not exit within the five seconds is killed, and
    [close] returns. *)
Lemma rtmp_close_outcomes_witness :
  RTMPStreamWriter.is_active (fst (RTMPStreamWriter.close started_writer child_hangs)) = false ∧
  RTMPStreamWriter.process (fst (RTMPStreamWriter.close started_writer child_hangs)) = None.
Proof.
  apply (rtmp_close_outcomes started_writer _ child_hangs (Ok tt)). reflexivity.
Defined.

Lemma rtmp_close_twice_witness :
  RTMPStreamWriter.close (fst (RTMPStreamWriter.close started_writer clean_exit)) child_hangs
  = (fst (RTMPStreamWriter.close started_writer clean_exit), Ok tt).
Proof.
  apply (rtmp_close_twice started_writer _ clean_exit child_hangs). reflexivity.
Defined.

(** ** AudioCapture: buffers, capacity and release *)
Section CaptureFacts.
Import AudioCapture.




(** X6. Below the capacity nothing is dropped: when the chunks already queued
    and the chunks pushed are at most 100 together, draining returns all of
    them, the queued ones first, each in the order it arrived. *)
Theorem audio_queue_loses_nothing_below_capacity
    (c : t) (buffers : list (list byte)) (chunks : list (list float32)) :
  is_active c = true →
  PyQueue.maxsize (audio_queue c) = 100 →
  Forall2 decodes buffers chunks →
  (length (PyQueue.items (audio_queue c)) + length chunks ≤ 100)%nat →
  ∃ c1,
    callbacks c buffers = (c1, Ok tt) ∧
    fst (drain 101 c1) = PyQueue.items (audio_queue c) ++ chunks.
Proof.
  intros Hact Hmax Hdec Hroom.
  assert (within_capacity 100 (audio_queue c)) as Hcap
    by (repeat split; [exact Hmax | lia | lia]).
  eexists. split; [apply (callbacks_push 100 c buffers chunks Hact Hcap Hdec) |].
  rewrite audio_drain_all by (simpl; rewrite length_lastn; lia).
  simpl. apply lastn_short. rewrite length_app. lia.
Qed.

Lemma callbacks_inactive (c : t) (buffers : list (list byte)) :
  is_active c = false → callbacks c buffers = (c, Ok tt).
Proof.
  intros Hoff. induction buffers as [| b buffers IH]; simpl; [reflexivity |].
  unfold _audio_callback. rewrite Hoff. exact IH.
Qed.

(** X7. After [stop_capture], however it ended, the callback drops whatever the
    device still delivers: no buffer is decoded, none is queued, nothing is
    raised. *)
Theorem nothing_is_queued_after_stop_capture
    (c c1 : t) (env : stop_env) (r : result unit) (buffers : list (list byte)) :
  stop_capture c env = (c1, r) → callbacks c1 buffers = (c1, Ok tt).
Proof.
  intros Hstop. apply callbacks_inactive.
  apply (stop_capture_deactivates c c1 env r Hstop).
Qed.

(** X8. A device that opens but refuses to start: [start_capture] returns
    normally with the opened stream kept and the capture inactive; a
    [stop_capture] that meets no error then stops and closes that stream,
    drops it and terminates PortAudio; and a further [stop_capture] finds
    nothing left to release. *)
Theorem half_started_capture_is_released
    (c : t) (env : start_env) (e : exn) (senv senv' : stop_env) :
  is_active c = false →
  open_raises env = None →
  start_stream_raises env = Some e →
  senv = mkStopEnv None None None →
  terminate_raises senv' = None →
  ∃ c1 c2,
    start_capture c env = (c1, Ok tt) ∧
    is_active c1 = false ∧ stream c1 = Some (mkPaStream false false) ∧
    stop_capture c1 senv = (c2, Ok tt) ∧
    is_active c2 = false ∧ stream c2 = None ∧ audio_terminated c2 = true ∧
    audio_queue c2 = audio_queue c ∧
    stop_capture c2 senv' = (c2, Ok tt).
Proof.
  intros Hoff Hopen Hstart -> Hterm.
  unfold start_capture. rewrite Hopen, Hstart. simpl.
  do 2 eexists. split; [reflexivity |]. split; [exact Hoff |]. split; [reflexivity |].
  unfold stop_capture. simpl. rewrite Hterm.
  repeat split.
Qed.

End CaptureFacts.


Lemma audio_queue_loses_nothing_below_capacity_witness :
  ∃ c1,
    AudioCapture.callbacks capturing (test_buffer <$> seq 0 100) = (c1, Ok tt) ∧
    fst (AudioCapture.drain 101 c1)
    = PyQueue.items (AudioCapture.audio_queue capturing) ++ (test_chunk <$> seq 0 100).
Proof.
  apply (audio_queue_loses_nothing_below_capacity capturing).
  - reflexivity.
  - reflexivity.
  - apply Forall2_fmap, Forall_Forall2_diag, Forall_forall.
    intros i Hi. reflexivity.
  - simpl. lia.
Defined.

Definition capture_stop_fails : AudioCapture.stop_env :=
  AudioCapture.mkStopEnv (Some (OSError "[Errno -9988] Stream closed"%string)) None None.

Lemma nothing_is_queued_after_stop_capture_witness :
  AudioCapture.callbacks (fst (AudioCapture.stop_capture capturing capture_stop_fails))
    (test_buffer <$> seq 0 3)
  = (fst (AudioCapture.stop_capture capturing capture_stop_fails), Ok tt).
Proof.
  apply (nothing_is_queued_after_stop_capture capturing _ capture_stop_fails
           (Raise (OSError "[Errno -9988] Stream closed"%string))).
  reflexivity.
Defined.

Definition fresh_capture : AudioCapture.t :=
  AudioCapture.mk 16000 1024 false None (PyQueue.new 100) false.

Lemma half_started_capture_is_released_witness :
  ∃ c1 c2,
    AudioCapture.start_capture fresh_capture
      (AudioCapture.mkStartEnv None (Some (OSError "[Errno -9997] Invalid sample rate"%string)))
    = (c1, Ok tt) ∧
    AudioCapture.is_active c1 = false ∧
    AudioCapture.stream c1 = Some (AudioCapture.mkPaStream false false) ∧
    AudioCapture.stop_capture c1 capture_released = (c2, Ok tt) ∧
    AudioCapture.is_active c2 = false ∧ AudioCapture.stream c2 = None ∧
    AudioCapture.audio_terminated c2 = true ∧
    AudioCapture.audio_queue c2 = AudioCapture.audio_queue fresh_capture ∧
    AudioCapture.stop_capture c2 capture_stop_fails = (c2, Ok tt).
Proof.
  apply (half_started_capture_is_released fresh_capture
           (AudioCapture.mkStartEnv None
              (Some (OSError "[Errno -9997] Invalid sample rate"%string)))
           (OSError "[Errno -9997] Invalid sample rate"%string));
    reflexivity.
Defined.

(** ** The worker of a stream *)
Section Worker.
Import TalkingHeadRTMPService.

(** How the loop of [audio_processor] stands after some turns: still
    looping, ended because [active] was cleared, or dead of an exception
    that [run_chunk] raised in the thread. *)
Inductive worker_status : Type :=
| Looping
| Ended
| Died (e : exn).

(** The loop of [audio_processor], one turn for each answer of the engine
    ([None]: [run_chunk] returns; the answer of a turn that finds no chunk
    is not used). *)
Fixpoint audio_processor (answers : list (option exn)) (stream : stream_entry)
  : stream_entry * worker_status :=
  match answers with
  | [] => (stream, Looping)
  | run_chunk_raises :: rest =>
      match audio_processor_turn stream run_chunk_raises with
      | None => (stream, Ended)
      | Some (stream1, Ok _) => audio_processor rest stream1
      | Some (stream1, Raise e) => (stream1, Died e)
      end
  end.

Definition engine_chunks (s : stream_entry) : list (list float32) :=
  StreamSDK.chunks (sdk s).

Definition queued_chunks (s : stream_entry) : list (list float32) :=
  PyQueue.items (AudioCapture.audio_queue (audio_capture s)).


(** X10. An exception of [run_chunk] is not caught in the thread: the worker
    dies of it, the chunk it had taken is gone from the queue, and the later
    chunks stay queued with nobody to take them. *)
Theorem worker_dies_of_engine_error
    (stream : stream_entry) (e : exn) (later : list (option exn))
    (chunk : list float32) (rest : list (list float32)) :
  active stream = true →
  queued_chunks stream = chunk :: rest →
  ∃ s1,
    audio_processor (Some e :: later) stream = (s1, Died e) ∧
    engine_chunks s1 = engine_chunks stream ∧
    queued_chunks s1 = rest ∧
    active s1 = true.
Proof.
  intros Hact Hq. simpl. unfold audio_processor_turn. rewrite Hact.
  destruct stream as [sdk0 w0 cap0 act0 th0]. simpl in *.
  destruct cap0 as [sr cs term st [m its] act]. unfold queued_chunks in Hq. simpl in Hq.
  subst its. unfold AudioCapture.get_audio_chunk. simpl.
  eexists. split; [reflexivity |]. repeat split. exact Hact.
Qed.

End Worker.

(** The entry of s1 with three chunks waiting in its audio queue. *)
Definition s1_with_backlog : TalkingHeadRTMPService.stream_entry :=
  TalkingHeadRTMPService.mkEntry
    (StreamSDK.set_writer
       (fst (StreamSDK.setup
               (StreamSDK.mk "cfg.pkl"%string "checkpoints"%string None None [] false)
               "avatar.png"%string "/dev/null"%string
               TalkingHeadRTMPService.setup_kwargs None))
       StreamSDK.SessionWriter)
    started_writer
    (fst (AudioCapture.callbacks capturing (test_buffer <$> seq 0 3)))
    true (Some (Thread.mk true true)).


Lemma worker_dies_of_engine_error_witness :
  ∃ s1,
    audio_processor [Some (RuntimeError "CUDA out of memory"%string); None] s1_with_backlog
    = (s1, Died (RuntimeError "CUDA out of memory"%string)) ∧
    engine_chunks s1 = engine_chunks s1_with_backlog ∧
    queued_chunks s1 = [test_chunk 1; test_chunk 2] ∧
    TalkingHeadRTMPService.active s1 = true.
Proof.
  apply (worker_dies_of_engine_error s1_with_backlog
           (RuntimeError "CUDA out of memory"%string) [None] (test_chunk 0)).
  - reflexivity.
  - reflexivity.
Defined.

(** ** The registry of the RTMP service *)
Section Registry.
Import TalkingHeadRTMPService.

(** X11. [GET /streams] lists every registered id, each once, and nothing else,
    and its count is the length of that list. *)
Theorem list_streams_lists_each_id_once (service : t) :
  ∃ ids n,
    RtmpApp.list_streams service = RtmpApp.Streams ids n ∧
    NoDup ids ∧
    (∀ stream_id, stream_id ∈ ids ↔ stream_id ∈ dom (active_streams service)) ∧
    n = length ids.
Proof.
  unfold RtmpApp.list_streams. do 2 eexists. split; [reflexivity |].
  split; [apply NoDup_fst_map_to_list |]. split.
  - intros stream_id. rewrite elem_of_dom, list_elem_of_fmap. split.
    + intros ([k v] & -> & Hin). apply elem_of_map_to_list in Hin. eauto.
    + intros [v Hv]. exists (stream_id, v). split; [reflexivity |].
      apply elem_of_map_to_list, Hv.
  - rewrite length_fmap, length_map_to_list. reflexivity.
Qed.

(** The exceptions the outside can raise during [create_stream]. *)
Definition creation_errors (env : create_env) : list exn :=
  omap id [sdk_init_raises env; popen_raises env; pyaudio_raises env; sdk_setup_raises env].

(** X12. [create_stream] registers all or nothing.  If the engine, ffmpeg,
    PortAudio or [setup] raises, the call raises that exception and the
    service is unchanged.  Otherwise the id is bound -- replacing any entry
    it had, there is no check -- to a fresh entry: active, engine set up on
    the source and wired to the session writer, writer started on the URL,
    capture constructed but not started, no worker yet. *)
Theorem create_stream_all_or_nothing
    (svc svc1 : t) (stream_id source_path rtmp_url : string) (env : create_env)
    (r : result (StreamSDK.t * AudioCapture.t)) :
  create_stream svc stream_id source_path rtmp_url env = (svc1, r) →
  match r with
  | Raise e => svc1 = svc ∧ e ∈ creation_errors env
  | Ok (sdk0, cap0) =>
      creation_errors env = [] ∧
      ∃ entry,
        active_streams svc1 = <[stream_id := entry]> (active_streams svc) ∧
        sdk entry = sdk0 ∧ audio_capture entry = cap0 ∧
        active entry = true ∧ audio_thread entry = None ∧
        StreamSDK.source sdk0 = Some (source_path, setup_kwargs) ∧
        StreamSDK.writer sdk0 = Some StreamSDK.SessionWriter ∧
        StreamSDK.closed sdk0 = false ∧
        RTMPStreamWriter.rtmp_url (rtmp_writer entry) = rtmp_url ∧
        RTMPStreamWriter.is_active (rtmp_writer entry) = true ∧
        is_Some (RTMPStreamWriter.process (rtmp_writer entry)) ∧
        AudioCapture.is_active cap0 = false ∧ AudioCapture.stream cap0 = None ∧
        PyQueue.items (AudioCapture.audio_queue cap0) = []
  end.
Proof.
  unfold create_stream, creation_errors.
  destruct env as [[e1 |] [e2 |] [e3 |] [e4 |]]; simpl; intros [= <- <-];
    (split; [reflexivity |]); set_solver.
Qed.

(** What the three operations on one id can do to the registry. *)
Lemma create_stream_shape (svc svc1 : t) (stream_id source_path rtmp_url : string) env r :
  create_stream svc stream_id source_path rtmp_url env = (svc1, r) →
  active_streams svc1 = active_streams svc ∨
  (∃ s, active_streams svc1 = <[stream_id := s]> (active_streams svc)).
Proof.
  unfold create_stream. repeat case_match; intros; simplify_eq; simpl; eauto.
Qed.

Lemma stop_stream_registry (svc svc1 : t) (stream_id : string) (env : stop_env) touched r :
  stop_stream svc stream_id env = (svc1, touched, r) →
  active_streams svc1 = active_streams svc ∨
  (∃ s, active_streams svc1 = <[stream_id := s]> (active_streams svc)) ∨
  active_streams svc1 = delete stream_id (active_streams svc).
Proof.
  unfold stop_stream. repeat case_match; intros; simplify_eq; simpl; eauto.
Qed.

Lemma start_stream_processing_registry (svc svc1 : t) (stream_id : string) env r :
  start_stream_processing svc stream_id env = (svc1, r) →
  active_streams svc1 = active_streams svc ∨
  (∃ s, active_streams svc1 = <[stream_id := s]> (active_streams svc)).
Proof.
  unfold start_stream_processing. repeat case_match; intros; simplify_eq; simpl; eauto.
Qed.

(** X13. Sessions are isolated: creating a stream, starting its processing or
    stopping it, whatever the outcome, leaves the entry of every other id
    exactly as it was. *)
Theorem other_streams_are_untouched
    (svc : t) (stream_id other : string) (source_path rtmp_url : string)
    (cenv : create_env) (penv : processing_env) (senv : stop_env) :
  other ≠ stream_id →
  active_streams (fst (create_stream svc stream_id source_path rtmp_url cenv)) !! other
  = active_streams svc !! other ∧
  active_streams (fst (start_stream_processing svc stream_id penv)) !! other
  = active_streams svc !! other ∧
  active_streams (fst (fst (stop_stream svc stream_id senv))) !! other
  = active_streams svc !! other.
Proof.
  intros Hne. split; [| split].
  - destruct (create_stream svc stream_id source_path rtmp_url cenv) as [svc1 r] eqn:Hc.
    apply create_stream_shape in Hc. simpl.
    destruct Hc as [-> | (s & ->)]; [reflexivity | apply lookup_insert_ne; auto].
  - destruct (start_stream_processing svc stream_id penv) as [svc1 r] eqn:Hp.
    apply start_stream_processing_registry in Hp. simpl.
    destruct Hp as [-> | (s & ->)]; [reflexivity | apply lookup_insert_ne; auto].
  - destruct (stop_stream svc stream_id senv) as [[svc1 touched] r] eqn:Hs.
    apply stop_stream_registry in Hs. simpl.
    destruct Hs as [-> | [(s & ->) | ->]];
      [reflexivity | apply lookup_insert_ne; auto | apply lookup_delete_ne; auto].
Qed.

End Registry.

Definition ffmpeg_missing : TalkingHeadRTMPService.create_env :=
  TalkingHeadRTMPService.mkCreateEnv None
    (Some (OSError "[Errno 2] No such file or directory: 'ffmpeg'"%string)) None None.

(** Without ffmpeg nothing is registered, not even beside s1. *)
Lemma create_stream_all_or_nothing_witness :
  fst (TalkingHeadRTMPService.create_stream service_with_s1 "s2"%string
         "avatar.png"%string "rtmp://localhost/live/s2"%string ffmpeg_missing)
  = service_with_s1 ∧
  OSError "[Errno 2] No such file or directory: 'ffmpeg'"%string
  ∈ creation_errors ffmpeg_missing.
Proof.
  apply (create_stream_all_or_nothing service_with_s1 _ "s2"%string "avatar.png"%string
           "rtmp://localhost/live/s2"%string ffmpeg_missing
           (Raise (OSError "[Errno 2] No such file or directory: 'ffmpeg'"%string))).
  reflexivity.
Defined.

Lemma other_streams_are_untouched_witness :
  TalkingHeadRTMPService.active_streams
    (fst (TalkingHeadRTMPService.create_stream service_with_s1 "s2"%string
            "avatar.png"%string "rtmp://localhost/live/s2"%string create_ok)) !! "s1"%string
  = TalkingHeadRTMPService.active_streams service_with_s1 !! "s1"%string ∧
  TalkingHeadRTMPService.active_streams
    (fst (TalkingHeadRTMPService.start_stream_processing service_with_s1 "s2"%string
            (TalkingHeadRTMPService.mkProcessingEnv device_found None))) !! "s1"%string
  = TalkingHeadRTMPService.active_streams service_with_s1 !! "s1"%string ∧
  TalkingHeadRTMPService.active_streams
    (fst (fst (TalkingHeadRTMPService.stop_stream service_with_s1 "s2"%string stop_clean)))
    !! "s1"%string
  = TalkingHeadRTMPService.active_streams service_with_s1 !! "s1"%string.
Proof.
  apply (other_streams_are_untouched service_with_s1 "s2"%string "s1"%string).
  discriminate.
Defined.

(** ** The HTTP handlers beyond their guards *)
Section Handlers.
Import TalkingHeadRTMPService.

(** Teardown answers under which nothing raises: the capture and the
    engine close, and the child exits or is killed after the timeout. *)
Definition teardown_succeeds (env : stop_env) : Prop :=
  capture_stop env = AudioCapture.mkStopEnv None None None ∧
  sdk_close_raises env = None ∧
  RTMPStreamWriter.stdin_close_raises (writer_close env) = None ∧
  (RTMPStreamWriter.wait_raises (writer_close env) = None ∨
   RTMPStreamWriter.wait_raises (writer_close env) = Some TimeoutExpired).

(** What [POST /start_stream] leaves in the registry when it succeeds. *)
Lemma start_stream_success (service service1 : t) (stream_id : string)
    (request : RtmpApp.StreamRequest) (env : RtmpApp.start_env) (b : RtmpApp.body) :
  RtmpApp.start_stream service stream_id request env = (service1, Ok b) →
  active_streams service !! stream_id = None ∧
  b = RtmpApp.Started ("Stream " +:+ stream_id +:+ " started successfully")
                      (RtmpApp.rtmp_url request) ∧
  cfg_pkl service1 = cfg_pkl service ∧ data_root service1 = data_root service ∧
  ∃ s, active_streams service1 = <[stream_id := s]> (active_streams service) ∧
       active s = true ∧ audio_thread s = Some (Thread.mk true true) ∧
       AudioCapture.audio_terminated (audio_capture s) = false ∧
       RTMPStreamWriter.is_active (rtmp_writer s) = true ∧
       is_Some (RTMPStreamWriter.process (rtmp_writer s)).
Proof.
  unfold RtmpApp.start_stream. case_bool_decide as Hin; [discriminate |].
  apply not_elem_of_dom in Hin.
  unfold create_stream.
  destruct (RtmpApp.create env) as [[e1 |] [e2 |] [e3 |] [e4 |]]; simpl; try discriminate.
  unfold start_stream_processing, store. simpl. rewrite lookup_insert_eq. simpl.
  destruct (AudioCapture.start_capture _ _) as [cap1 [[] | e]] eqn:Hcap; simpl.
  - destruct (thread_start_raises (RtmpApp.processing env)); simpl; [discriminate |].
    intros [= <- <-]. split; [exact Hin |]. split; [reflexivity |]. simpl.
    split; [reflexivity |]. split; [reflexivity |].
    eexists. split; [apply insert_insert_eq |]. simpl.
    split; [reflexivity |]. split; [reflexivity |]. split; [| split; [reflexivity | eauto]].
    revert Hcap. unfold AudioCapture.start_capture. simpl.
    repeat case_match; intros; simplify_eq; reflexivity.
  - discriminate.
Qed.

(** X14. A start followed by a stop is a round trip on the registry: when
    [POST /start_stream/{id}] has succeeded and the teardown meets no error,
    [DELETE /stop_stream/{id}] answers with its success message and the
    service is again what it was before the start, whether or not the
    worker ended within the timeout of [join]. *)
Theorem start_then_stop_restores_registry
    (service service1 : t) (stream_id : string) (request : RtmpApp.StreamRequest)
    (env : RtmpApp.start_env) (b : RtmpApp.body) (senv : stop_env) :
  RtmpApp.start_stream service stream_id request env = (service1, Ok b) →
  teardown_succeeds senv →
  RtmpApp.stop_stream service1 stream_id senv
  = (service, Ok (RtmpApp.Stopped ("Stream " +:+ stream_id +:+ " stopped successfully"))).
Proof.
  intros Hstart (Hcap & Hsdk & Hin & Hwait).
  apply start_stream_success in Hstart
    as (Hfree & _ & Hcfg & Hroot & s & Hreg & Hact & Hth & Hterm & Hw & [p Hp]).
  unfold RtmpApp.stop_stream.
  rewrite bool_decide_eq_true_2
    by (apply elem_of_dom; rewrite Hreg, lookup_insert_eq; eauto). simpl.
  unfold stop_stream. rewrite Hreg, lookup_insert_eq.
  assert (∃ cap1, AudioCapture.stop_capture (audio_capture (set_active s false))
                    (capture_stop senv) = (cap1, Ok tt)) as [cap1 Hstop].
  { rewrite Hcap. unfold AudioCapture.stop_capture. simpl.
    destruct (AudioCapture.stream (audio_capture s)); eexists; reflexivity. }
  rewrite Hstop. simpl. rewrite Hth. simpl. rewrite Hsdk. simpl.
  unfold RTMPStreamWriter.close. simpl. rewrite Hp, Hin.
  assert (delete stream_id (<[stream_id := s]> (active_streams service))
          = active_streams service) as Hback by (apply delete_insert_id, Hfree).
  destruct Hwait as [-> | ->]; simpl; rewrite Hback;
    destruct service, service1; simpl in *; subst; reflexivity.
Qed.

(** X15. A successful start adds exactly its id, a successful stop removes
    exactly its id: the set of registered ids and the count reported by
    [GET /streams] move by that one id. *)
Theorem handlers_move_registry_by_one_id
    (service service1 service2 : t) (started stopped : string)
    (request : RtmpApp.StreamRequest) (env : RtmpApp.start_env) (senv : stop_env)
    (b b' : RtmpApp.body) :
  RtmpApp.start_stream service started request env = (service1, Ok b) →
  RtmpApp.stop_stream service1 stopped senv = (service2, Ok b') →
  (started ∉ dom (active_streams service)) ∧
  dom (active_streams service1) = {[started]} ∪ dom (active_streams service) ∧
  size (active_streams service1) = S (size (active_streams service)) ∧
  stopped ∈ dom (active_streams service1) ∧
  dom (active_streams service2) = dom (active_streams service1) ∖ {[stopped]} ∧
  S (size (active_streams service2)) = size (active_streams service1).
Proof.
  intros Hstart Hstop.
  apply start_stream_success in Hstart as (Hfree & _ & _ & _ & s & Hreg & _).
  split; [apply not_elem_of_dom, Hfree |].
  split; [rewrite Hreg; apply dom_insert_L |].
  split; [rewrite Hreg; apply map_size_insert_None, Hfree |].
  clear Hreg Hfree s. revert Hstop.
  unfold RtmpApp.stop_stream. case_bool_decide as Hin; simpl; [| discriminate].
  destruct (stop_stream service1 stopped senv) as [[svc2 touched] [[] | e]] eqn:Hstop;
    [| discriminate].
  intros [= <- _]. split; [exact Hin |].
  apply elem_of_dom in Hin as [stream Hin].
  destruct (stop_stream_registered service1 stopped senv stream svc2 touched (Ok tt)
              Hin Hstop) as [(e & s & Hr & _) | (_ & -> & _)]; [discriminate |].
  simpl. split; [apply dom_delete_L |].
  rewrite map_size_delete_Some by eauto.
  assert (size (active_streams service1) ≠ 0%nat)
    by (intros Hz; apply map_size_empty_iff in Hz; rewrite Hz in Hin; discriminate).
  lia.
Qed.

End Handlers.

Definition start_ok : RtmpApp.start_env :=
  RtmpApp.mkStartEnv create_ok (TalkingHeadRTMPService.mkProcessingEnv device_found None).

Definition request_s2 : RtmpApp.StreamRequest :=
  RtmpApp.mkRequest "avatar.png"%string "rtmp://localhost/live/s2"%string.

(** s2 is started beside s1 and stopped again, with a worker that [join]
    gives up on and a child that has to be killed. *)
Lemma start_then_stop_restores_registry_witness :
  RtmpApp.stop_stream (fst (RtmpApp.start_stream service_with_s1 "s2"%string request_s2 start_ok))
    "s2"%string
    (TalkingHeadRTMPService.mkStopEnv capture_released false None child_hangs)
  = (service_with_s1,
     Ok (RtmpApp.Stopped ("Stream " +:+ "s2" +:+ " stopped successfully")%string)).
Proof.
  apply (start_then_stop_restores_registry service_with_s1 _ "s2"%string request_s2 start_ok
           (RtmpApp.Started ("Stream " +:+ "s2" +:+ " started successfully")%string
                            "rtmp://localhost/live/s2"%string)).
  - vm_compute. reflexivity.
  - repeat split. right. reflexivity.
Defined.

(** s2 is started beside s1, then s1 is stopped. *)
Lemma handlers_move_registry_by_one_id_witness :
  ("s2"%string ∉ dom (TalkingHeadRTMPService.active_streams service_with_s1)) ∧
  dom (TalkingHeadRTMPService.active_streams
         (fst (RtmpApp.start_stream service_with_s1 "s2"%string request_s2 start_ok)))
  = {["s2"%string]} ∪ dom (TalkingHeadRTMPService.active_streams service_with_s1) ∧
  size (TalkingHeadRTMPService.active_streams
          (fst (RtmpApp.start_stream service_with_s1 "s2"%string request_s2 start_ok)))
  = S (size (TalkingHeadRTMPService.active_streams service_with_s1)) ∧
  "s1"%string ∈ dom (TalkingHeadRTMPService.active_streams
                       (fst (RtmpApp.start_stream service_with_s1 "s2"%string request_s2
                               start_ok))) ∧
  dom (TalkingHeadRTMPService.active_streams
         (fst (RtmpApp.stop_stream
                 (fst (RtmpApp.start_stream service_with_s1 "s2"%string request_s2 start_ok))
                 "s1"%string stop_clean)))
  = dom (TalkingHeadRTMPService.active_streams
           (fst (RtmpApp.start_stream service_with_s1 "s2"%string request_s2 start_ok)))
    ∖ {["s1"%string]} ∧
  S (size (TalkingHeadRTMPService.active_streams
             (fst (RtmpApp.stop_stream
                     (fst (RtmpApp.start_stream service_with_s1 "s2"%string request_s2
                             start_ok))
                     "s1"%string stop_clean))))
  = size (TalkingHeadRTMPService.active_streams
            (fst (RtmpApp.start_stream service_with_s1 "s2"%string request_s2 start_ok))).
Proof.
  apply (handlers_move_registry_by_one_id service_with_s1 _ _ "s2"%string "s1"%string
           request_s2 start_ok stop_clean
           (RtmpApp.Started ("Stream " +:+ "s2" +:+ " started successfully")%string
                            "rtmp://localhost/live/s2"%string)
           (RtmpApp.Stopped ("Stream " +:+ "s1" +:+ " stopped successfully")%string)).
  - vm_compute. reflexivity.
  - vm_compute. reflexivity.
Defined.

(** ** Failures inside the handlers *)
Section HandlerFailures.
Import TalkingHeadRTMPService.

(** X16. When creating the stream fails, [POST /start_stream] answers 500 with
    the text of the first error met (engine, then ffmpeg, then PortAudio,
    then [setup]), and the service is unchanged: the id stays free. *)
Theorem start_stream_reports_creation_failure
    (service : t) (stream_id : string) (request : RtmpApp.StreamRequest)
    (env : RtmpApp.start_env) (e : exn) :
  active_streams service !! stream_id = None →
  head (creation_errors (RtmpApp.create env)) = Some e →
  RtmpApp.start_stream service stream_id request env
  = (service, Raise (HTTPException 500 (str_exn e))).
Proof.
  intros Hfree Hfirst. unfold RtmpApp.start_stream.
  rewrite bool_decide_eq_false_2 by (apply not_elem_of_dom, Hfree).
  unfold create_stream, creation_errors in *.
  destruct (RtmpApp.create env) as [[e1 |] [e2 |] [e3 |] [e4 |]]; simpl in *;
    simplify_eq; reflexivity.
Qed.

(** The entry of the id holds a worker thread that was never started. *)
Definition worker_never_started (service : t) (stream_id : string) : Prop :=
  ∃ s, active_streams service !! stream_id = Some s ∧
       audio_thread s = Some (Thread.mk false false).

Lemma stop_with_unstarted_worker (service : t) (stream_id : string) (senv : stop_env) :
  worker_never_started service stream_id →
  ∃ service1 detail,
    RtmpApp.stop_stream service stream_id senv
    = (service1, Raise (HTTPException 500 detail)) ∧
    worker_never_started service1 stream_id.
Proof.
  intros (s & Hin & Hth). unfold RtmpApp.stop_stream.
  rewrite bool_decide_eq_true_2 by (apply elem_of_dom; eauto). simpl.
  unfold stop_stream. rewrite Hin.
  destruct (AudioCapture.stop_capture _ _) as [cap1 [[] | e]]; simpl.
  - rewrite Hth. simpl. do 2 eexists. split; [reflexivity |].
    eexists. simpl. rewrite lookup_insert_eq. split; reflexivity.
  - do 2 eexists. split; [reflexivity |].
    eexists. simpl. rewrite lookup_insert_eq. split; [reflexivity | exact Hth].
Qed.

(** X17. When the worker thread cannot be started, [POST /start_stream] answers
    500 although the stream was created: the id stays registered with its
    unstarted thread.  From then on [DELETE /stop_stream] cannot remove it:
    whatever the outside answers, joining the unstarted thread (or an
    earlier step) raises, the handler answers 500, and the entry is still
    there with its unstarted thread. *)
Theorem unstarted_worker_blocks_stop
    (service : t) (stream_id : string) (request : RtmpApp.StreamRequest)
    (env : RtmpApp.start_env) (e : exn) :
  active_streams service !! stream_id = None →
  creation_errors (RtmpApp.create env) = [] →
  thread_start_raises (RtmpApp.processing env) = Some e →
  ∃ service1,
    RtmpApp.start_stream service stream_id request env
    = (service1, Raise (HTTPException 500 (str_exn e))) ∧
    worker_never_started service1 stream_id ∧
    ∀ (service' : t) (senv : stop_env),
      worker_never_started service' stream_id →
      ∃ service'' detail,
        RtmpApp.stop_stream service' stream_id senv
        = (service'', Raise (HTTPException 500 detail)) ∧
        worker_never_started service'' stream_id.
Proof.
  intros Hfree Hnone Hthread. unfold RtmpApp.start_stream.
  rewrite bool_decide_eq_false_2 by (apply not_elem_of_dom, Hfree).
  unfold create_stream, creation_errors in *.
  destruct (RtmpApp.create env) as [[e1 |] [e2 |] [e3 |] [e4 |]]; simpl in *;
    try discriminate.
  unfold start_stream_processing, store. simpl. rewrite lookup_insert_eq. simpl.
  destruct (AudioCapture.start_capture _ _) as [cap1 [[] | e']] eqn:Hcap; simpl.
  - rewrite Hthread. simpl. eexists. split; [reflexivity |]. split.
    + eexists. simpl. rewrite lookup_insert_eq. split; reflexivity.
    + intros service' senv. apply stop_with_unstarted_worker.
  - destruct (start_capture_returns
                (AudioCapture.mk 16000 1024 false None (PyQueue.new 100) false)
                (capture_start (RtmpApp.processing env))) as [c1 Hc1].
    unfold AudioCapture.new, AudioCapture.__init__ in Hcap. simpl in Hcap. congruence.
Qed.

Lemma close_without_error (w : RTMPStreamWriter.t) (env : RTMPStreamWriter.close_env) :
  RTMPStreamWriter.stdin_close_raises env = None →
  RTMPStreamWriter.wait_raises env = None ∨
  RTMPStreamWriter.wait_raises env = Some TimeoutExpired →
  ∃ w1, RTMPStreamWriter.close w env = (w1, Ok tt).
Proof.
  intros Hclose Hwait. unfold RTMPStreamWriter.close. simpl.
  destruct (RTMPStreamWriter.process w); [| eexists; reflexivity].
  rewrite Hclose. destruct Hwait as [-> | ->]; eexists; reflexivity.
Qed.

(** The thread of the entry, if there is one, was started. *)
Definition worker_joinable (s : stream_entry) : Prop :=
  match audio_thread s with
  | Some th => Thread.started th = true
  | None => True
  end.

(** X18. When [sdk.close()] raises during a stop, [DELETE /stop_stream] answers
    500 with the text of the error and the session is left half stopped: it
    is still registered, flagged inactive, its capture is released, but the
    engine is as it was and the RTMP writer was never closed.  The stop can
    be retried: a later [DELETE /stop_stream] whose teardown meets no error
    answers with the success message and removes the id. *)
Theorem failed_engine_close_can_be_retried
    (service : t) (stream_id : string) (stream : stream_entry)
    (senv senv' : stop_env) (e : exn) :
  active_streams service !! stream_id = Some stream →
  worker_joinable stream →
  capture_stop senv = AudioCapture.mkStopEnv None None None →
  sdk_close_raises senv = Some e →
  teardown_succeeds senv' →
  ∃ service1 s service2,
    RtmpApp.stop_stream service stream_id senv
    = (service1, Raise (HTTPException 500 (str_exn e))) ∧
    active_streams service1 !! stream_id = Some s ∧
    active s = false ∧
    AudioCapture.is_active (audio_capture s) = false ∧
    AudioCapture.stream (audio_capture s) = None ∧
    sdk s = sdk stream ∧ rtmp_writer s = rtmp_writer stream ∧
    RtmpApp.stop_stream service1 stream_id senv'
    = (service2,
       Ok (RtmpApp.Stopped ("Stream " +:+ stream_id +:+ " stopped successfully"))) ∧
    active_streams service2 = delete stream_id (active_streams service).
Proof.
  intros Hin Hjoin Hcap Hsdk (Hcap' & Hsdk' & Hclose' & Hwait').
  unfold RtmpApp.stop_stream.
  rewrite bool_decide_eq_true_2 by (apply elem_of_dom; eauto). simpl.
  unfold stop_stream at 1. rewrite Hin, Hcap.
  destruct stream as [sdk0 w0 cap0 act0 th0]. unfold worker_joinable in Hjoin.
  simpl in *.
  assert (∀ (c : AudioCapture.t),
            AudioCapture.stop_capture c (AudioCapture.mkStopEnv None None None)
            = (AudioCapture.mk (AudioCapture.sample_rate c) (AudioCapture.chunk_size c)
                 true None (AudioCapture.audio_queue c) false, Ok tt)) as Hstop.
  { intros [sr cs term [st |] q act]; reflexivity. }
  rewrite Hstop. simpl.
  assert (∀ (th : option Thread.t) (b : bool) (x : stream_entry),
            match th with Some t0 => Thread.started t0 = true | None => True end →
            ∃ th',
              (match th with
               | Some t0 =>
                   let (th1, r) := Thread.join t0 b in
                   (set_audio_thread x (Some th1), r)
               | None => (set_audio_thread x None, Ok tt)
               end) = (set_audio_thread x th', Ok tt) ∧
              match th' with Some t0 => Thread.started t0 = true | None => True end)
    as Hjoined.
  { intros [[st al] |] b x Hst; simpl in *.
    - subst st. unfold Thread.join. simpl. destruct al; eexists; split; reflexivity.
    - exists None. split; [reflexivity | exact I]. }
  destruct th0 as [th |].
  - destruct (Hjoined (Some th) (thread_ends_in_time senv)
                (mkEntry sdk0 w0
                   (AudioCapture.mk (AudioCapture.sample_rate cap0)
                      (AudioCapture.chunk_size cap0) true None
                      (AudioCapture.audio_queue cap0) false) false (Some th)) Hjoin)
      as (th' & Heq & Hst').
    simpl in Heq. destruct (Thread.join th (thread_ends_in_time senv)) as [th1 r1].
    unfold set_audio_thread in Heq. simpl in Heq. injection Heq as <- ->.
    simpl. rewrite Hsdk. simpl.
    do 3 eexists. split; [reflexivity |]. simpl. rewrite lookup_insert_eq.
    split; [reflexivity |]. repeat (split; [reflexivity |]).
    rewrite bool_decide_eq_true_2
      by (apply elem_of_dom; simpl; rewrite lookup_insert_eq; eauto). simpl.
    unfold stop_stream. simpl. rewrite lookup_insert_eq, Hcap', Hstop. simpl.
    destruct th1 as [st1 al1]. simpl in Hst'. subst st1.
    unfold Thread.join. simpl.
    destruct (close_without_error w0 (writer_close senv') Hclose' Hwait') as [w1 Hw1].
    destruct al1; simpl; rewrite Hsdk'; simpl; rewrite Hw1; simpl;
      (split; [reflexivity | apply delete_insert_eq]).
  - simpl. rewrite Hsdk. simpl.
    do 3 eexists. split; [reflexivity |]. simpl. rewrite lookup_insert_eq.
    split; [reflexivity |]. repeat (split; [reflexivity |]).
    rewrite bool_decide_eq_true_2
      by (apply elem_of_dom; simpl; rewrite lookup_insert_eq; eauto). simpl.
    unfold stop_stream. simpl. rewrite lookup_insert_eq, Hcap', Hstop. simpl.
    destruct (close_without_error w0 (writer_close senv') Hclose' Hwait') as [w1 Hw1].
    rewrite Hsdk'. simpl. rewrite Hw1. simpl.
    split; [reflexivity | apply delete_insert_eq].
Qed.

End HandlerFailures.

Lemma start_stream_reports_creation_failure_witness :
  RtmpApp.start_stream service_with_s1 "s2"%string request_s2
    (RtmpApp.mkStartEnv ffmpeg_missing
       (TalkingHeadRTMPService.mkProcessingEnv device_found None))
  = (service_with_s1,
     Raise (HTTPException 500
              (str_exn (OSError "[Errno 2] No such file or directory: 'ffmpeg'"%string)))).
Proof.
  apply (start_stream_reports_creation_failure service_with_s1 "s2"%string request_s2).
  - vm_compute. reflexivity.
  - reflexivity.
Defined.

Definition no_more_threads : RtmpApp.start_env :=
  RtmpApp.mkStartEnv create_ok
    (TalkingHeadRTMPService.mkProcessingEnv device_found
       (Some (RuntimeError "can't start new thread"%string))).

Lemma unstarted_worker_blocks_stop_witness :
  ∃ service1,
    RtmpApp.start_stream empty_service "s1"%string request_s1 no_more_threads
    = (service1,
       Raise (HTTPException 500 (str_exn (RuntimeError "can't start new thread"%string)))) ∧
    worker_never_started service1 "s1"%string ∧
    ∀ (service' : TalkingHeadRTMPService.t) (senv : TalkingHeadRTMPService.stop_env),
      worker_never_started service' "s1"%string →
      ∃ service'' detail,
        RtmpApp.stop_stream service' "s1"%string senv
        = (service'', Raise (HTTPException 500 detail)) ∧
        worker_never_started service'' "s1"%string.
Proof.
  apply (unstarted_worker_blocks_stop empty_service "s1"%string request_s1 no_more_threads
           (RuntimeError "can't start new thread"%string)).
  - vm_compute. reflexivity.
  - reflexivity.
  - reflexivity.
Defined.

Definition engine_close_fails : TalkingHeadRTMPService.stop_env :=
  TalkingHeadRTMPService.mkStopEnv capture_released true
    (Some (RuntimeError "worker raised"%string)) clean_exit.

(** The entry [POST /start_stream/s1] registered. *)
Definition entry_s1 : TalkingHeadRTMPService.stream_entry :=
  default s1_with_backlog (TalkingHeadRTMPService.active_streams service_with_s1 !! "s1"%string).

Lemma failed_engine_close_can_be_retried_witness :
  ∃ service1 s service2,
    RtmpApp.stop_stream service_with_s1 "s1"%string engine_close_fails
    = (service1, Raise (HTTPException 500 (str_exn (RuntimeError "worker raised"%string)))) ∧
    TalkingHeadRTMPService.active_streams service1 !! "s1"%string = Some s ∧
    TalkingHeadRTMPService.active s = false ∧
    AudioCapture.is_active (TalkingHeadRTMPService.audio_capture s) = false ∧
    AudioCapture.stream (TalkingHeadRTMPService.audio_capture s) = None ∧
    TalkingHeadRTMPService.sdk s = TalkingHeadRTMPService.sdk entry_s1 ∧
    TalkingHeadRTMPService.rtmp_writer s = TalkingHeadRTMPService.rtmp_writer entry_s1 ∧
    RtmpApp.stop_stream service1 "s1"%string stop_clean
    = (service2,
       Ok (RtmpApp.Stopped ("Stream " +:+ "s1" +:+ " stopped successfully")%string)) ∧
    TalkingHeadRTMPService.active_streams service2
    = delete "s1"%string (TalkingHeadRTMPService.active_streams service_with_s1).
Proof.
  apply (failed_engine_close_can_be_retried service_with_s1 "s1"%string entry_s1
           engine_close_fails stop_clean (RuntimeError "worker raised"%string)).
  - vm_compute. reflexivity.
  - vm_compute. reflexivity.
  - reflexivity.
  - reflexivity.
  - repeat split. left. reflexivity.
Defined.

(** ** The sessions of the WebSocket service *)
Section Sessions.
Context `{Extern}.
Import TalkingHeadStreamingService.

(** X19. [create_session] registers all or nothing: when the engine or its
    [setup] raises, that exception is raised and the service is unchanged;
    otherwise the id is bound to an active session whose engine is set up on
    the source and wired to the session writer, and whose writer is new:
    active, for the given socket, with an empty frame queue of capacity 30. *)
Theorem create_session_all_or_nothing
    (ws ws1 : t) (session_id source_path : string) (socket : StreamingVideoWriter.WebSocket)
    (sdk_init_raises sdk_setup_raises : option exn) (r : result StreamSDK.t) :
  create_session ws session_id source_path socket sdk_init_raises sdk_setup_raises
  = (ws1, r) →
  match r with
  | Raise e => ws1 = ws ∧ (sdk_init_raises = Some e ∨ sdk_setup_raises = Some e)
  | Ok sdk0 =>
      sdk_init_raises = None ∧ sdk_setup_raises = None ∧
      active_sessions ws1
      = <[session_id := mkEntry sdk0 (StreamingVideoWriter.__init__ socket) socket true]>
          (active_sessions ws) ∧
      StreamSDK.source sdk0 = Some (source_path, setup_kwargs) ∧
      StreamSDK.writer sdk0 = Some StreamSDK.SessionWriter ∧
      StreamSDK.chunks sdk0 = [] ∧ StreamSDK.closed sdk0 = false ∧
      PyQueue.items (StreamingVideoWriter.frame_queue (StreamingVideoWriter.__init__ socket))
      = [] ∧
      PyQueue.maxsize (StreamingVideoWriter.frame_queue (StreamingVideoWriter.__init__ socket))
      = 30
  end.
Proof.
  unfold create_session.
  destruct sdk_init_raises as [e1 |], sdk_setup_raises as [e2 |]; simpl;
    intros [= <- <-]; auto 10.
Qed.



(** X21. How [close_session] ends on a registered id.  If [sdk.close()] raises,
    the call raises the same exception, the session stays registered with
    its [active] flag cleared, and its writer is not closed: it stays
    active and no end marker is queued.  Otherwise the call returns, the id
    is removed, and the session it worked on has its engine closed and its
    writer closed by [StreamingVideoWriter.close]. *)
Theorem close_session_outcomes
    (ws ws1 : t) (session_id : string) (session : session_entry)
    (sdk_close_raises : option exn) (touched : option session_entry) (r : result unit) :
  active_sessions ws !! session_id = Some session →
  close_session ws session_id sdk_close_raises = (ws1, touched, r) →
  match sdk_close_raises with
  | Some e =>
      r = Raise e ∧ touched = Some (set_active session false) ∧
      active_sessions ws1 = <[session_id := set_active session false]> (active_sessions ws)
  | None =>
      r = Ok tt ∧
      active_sessions ws1 = delete session_id (active_sessions ws) ∧
      ∃ s, touched = Some s ∧ active s = false ∧
           StreamSDK.closed (sdk s) = true ∧
           StreamSDK.chunks (sdk s) = StreamSDK.chunks (sdk session) ∧
           StreamingVideoWriter.close (writer session) = (writer s, Ok tt) ∧
           StreamingVideoWriter.is_active (writer s) = false
  end.
Proof.
  intros Hin. unfold close_session. rewrite Hin.
  destruct sdk_close_raises as [e |]; simpl.
  - intros [= <- <- <-]. destruct session. auto.
  - destruct (close_returns (writer session)) as (w1 & Hclose & Hoff & _).
    rewrite Hclose. intros [= <- <- <-]. split; [reflexivity |]. split; [reflexivity |].
    eexists. split; [reflexivity |]. simpl. auto.
Qed.

(** X22. After [close_session], however it ended, [process_audio_chunk] for the
    id does nothing: no chunk reaches the engine any more, and nothing is
    raised. *)
Theorem no_chunk_after_close_session
    (ws ws1 : t) (session_id : string) (sdk_close_raises : option exn)
    (touched : option session_entry) (r : result unit)
    (audio_data : list float32) (run_chunk_raises : option exn) :
  close_session ws session_id sdk_close_raises = (ws1, touched, r) →
  process_audio_chunk ws1 session_id audio_data run_chunk_raises = (ws1, Ok tt).
Proof.
  unfold close_session, process_audio_chunk.
  destruct (active_sessions ws !! session_id) as [session |] eqn:Hin.
  - destruct (StreamSDK.close _ _) as [sdk1 [[] | e]].
    + destruct (StreamingVideoWriter.close _) as [w1 [[] | e]];
        intros [= <- _ _]; simpl; rewrite ?lookup_delete_eq, ?lookup_insert_eq; reflexivity.
    + intros [= <- _ _]. simpl. rewrite lookup_insert_eq. reflexivity.
  - intros [= <- _ _]. rewrite Hin. reflexivity.
Qed.

End Sessions.

Definition empty_ws_service : TalkingHeadStreamingService.t (H := test_extern) :=
  TalkingHeadStreamingService.__init__ "cfg.pkl"%string "checkpoints"%string.

Lemma create_session_all_or_nothing_witness :
  fst (TalkingHeadStreamingService.create_session empty_ws_service "1730000000.25"%string
         "avatar.png"%string 7%nat None (Some (ValueError "no face detected"%string)))
  = empty_ws_service ∧
  (None = Some (ValueError "no face detected"%string) ∨
   Some (ValueError "no face detected"%string)
   = Some (ValueError "no face detected"%string)).
Proof.
  apply (create_session_all_or_nothing (H := test_extern) empty_ws_service _
           "1730000000.25"%string "avatar.png"%string 7%nat None
           (Some (ValueError "no face detected"%string))
           (Raise (ValueError "no face detected"%string))).
  reflexivity.
Defined.

(** The session [create_session] registered in [ws_service_with_session]. *)
Definition the_session : TalkingHeadStreamingService.session_entry (H := test_extern) :=
  TalkingHeadStreamingService.mkEntry
    (StreamSDK.set_writer
       (fst (StreamSDK.setup
               (StreamSDK.mk "cfg.pkl"%string "checkpoints"%string None None [] false)
               "avatar.png"%string "/dev/null"%string
               TalkingHeadStreamingService.setup_kwargs None))
       StreamSDK.SessionWriter)
    (StreamingVideoWriter.__init__ 7%nat) 7%nat true.


Definition failed_close :=
  TalkingHeadStreamingService.close_session ws_service_with_session
    "1730000000.25"%string (Some (RuntimeError "worker raised"%string)).

Lemma close_session_outcomes_witness :
  snd failed_close = Raise (RuntimeError "worker raised"%string) ∧
  snd (fst failed_close) = Some (TalkingHeadStreamingService.set_active the_session false) ∧
  TalkingHeadStreamingService.active_sessions (fst (fst failed_close))
  = <["1730000000.25"%string := TalkingHeadStreamingService.set_active the_session false]>
      (TalkingHeadStreamingService.active_sessions ws_service_with_session).
Proof.
  apply (close_session_outcomes (H := test_extern) ws_service_with_session _
           "1730000000.25"%string the_session (Some (RuntimeError "worker raised"%string))).
  - vm_compute. reflexivity.
  - unfold failed_close.
    destruct (TalkingHeadStreamingService.close_session _ _ _) as [[? ?] ?]. reflexivity.
Defined.

Lemma no_chunk_after_close_session_witness :
  TalkingHeadStreamingService.process_audio_chunk (fst (fst failed_close))
    "1730000000.25"%string (test_chunk 0) None
  = (fst (fst failed_close), Ok tt).
Proof.
  apply (no_chunk_after_close_session (H := test_extern) ws_service_with_session _
           "1730000000.25"%string (Some (RuntimeError "worker raised"%string))
           (snd (fst failed_close)) (snd failed_close)).
  unfold failed_close.
  destruct (TalkingHeadStreamingService.close_session _ _ _) as [[? ?] ?]. reflexivity.
Defined.

(** * streaming_service.py: the delivery loop and the WebSocket endpoint *)

(** ** [stream_frames] *)
Module StreamFrames.
Section WithExtern.
Context `{Extern}.
Import StreamingVideoWriter TalkingHeadStreamingService.

(** How one turn of the loop of [stream_frames] ends. *)
Inductive turn_end : Type :=
| Sent (frame_data : msg)   (* [send_text(json.dumps(frame_data))] returned *)
| Suspended                 (* [await frame_queue.get()] on an empty queue *)
| Broke                     (* the end marker: [break] *)
| Caught (e : exn)          (* [send_text] raised: printed, the function ends *)
| Left.                     (* [session["active"]] is false: the loop is left *)

(** One turn of [while session["active"]: ...] on the session dictionary;
    [send_raises] is what [websocket.send_text] raises, if anything. *)
Definition stream_frames_turn (session : session_entry) (send_raises : option exn)
  : session_entry * turn_end :=
  if active session then
    match PyQueue.get_nowait QueueEmpty (frame_queue (writer session)) with
    | Raise _ => (session, Suspended)
    | Ok (frame_data, q1) =>
        let session1 := set_writer session (set_frame_queue (writer session) q1) in
        match frame_data with
        | EndMsg => (session1, Broke)
        | FrameMsg _ _ =>
            match send_raises with
            | None => (session1, Sent frame_data)
            | Some e => (session1, Caught e)
            end
        end
    end
  else (session, Left).

(** The loop run on a session nobody else touches, one turn per answer of
    the socket: the session, the dictionaries sent in order, and how the
    loop stands ([None]: it would go on with the next turn). *)
Fixpoint stream_frames_loop (answers : list (option exn)) (session : session_entry)
  : session_entry * list msg * option turn_end :=
  match answers with
  | [] => (session, [], None)
  | send_raises :: rest =>
      match stream_frames_turn session send_raises with
      | (session1, Sent frame_data) =>
          let '(session2, sent, how) := stream_frames_loop rest session1 in
          (session2, frame_data :: sent, how)
      | (session1, how) => (session1, [], Some how)
      end
  end.

(** [stream_frames(session_id, websocket)]: [None] when the id is not
    registered and the function returns at once. *)
Definition stream_frames (service : t) (session_id : string) (answers : list (option exn))
  : option (t * list msg * option turn_end) :=
  match active_sessions service !! session_id with
  | None => None
  | Some session =>
      let '(session1, sent, how) := stream_frames_loop answers session in
      Some (store service session_id session1, sent, how)
  end.

End WithExtern.
End StreamFrames.

(** ** Delivery of the queued frames *)
Section Delivery.
Context `{Extern}.
Import StreamingVideoWriter TalkingHeadStreamingService StreamFrames.

Definition is_frame (m : msg) : Prop :=
  match m with FrameMsg _ _ => True | EndMsg => False end.

Definition queued_frames (s : session_entry) : list msg :=
  PyQueue.items (frame_queue (writer s)).

(** X23. With a socket that accepts and nobody else touching the session, the
    loop sends the queued frames oldest first and stops at the first end
    marker: the frames before the marker are sent, the marker is consumed
    and ends the loop, and what was queued behind it is never sent.  With
    no marker in the queue the loop sends every frame and then waits. *)
Theorem delivery_stops_at_end_marker
    (session : session_entry) (answers : list (option exn))
    (frames : list msg) (behind : option (list msg)) :
  active session = true →
  Forall is_frame frames →
  queued_frames session
  = frames ++ match behind with Some rest => EndMsg :: rest | None => [] end →
  Forall (λ a, a = None) answers →
  (length frames < length answers)%nat →
  ∃ s1,
    stream_frames_loop answers session
    = (s1, frames, Some (match behind with Some _ => Broke | None => Suspended end)) ∧
    queued_frames s1 = default [] behind ∧
    active s1 = true ∧ sdk s1 = sdk session.
Proof.
  intros Hact Hframes. revert session answers Hact.
  induction Hframes as [| m frames Hm _ IH]; intros session answers Hact Hq Hans Hlen.
  - destruct answers as [| a answers]; [simpl in Hlen; lia |].
    destruct session as [sdk0 [ws0 [mx its] wact] sock act0].
    unfold queued_frames in *. simpl in *. subst.
    unfold stream_frames_turn, PyQueue.get_nowait. simpl.
    destruct behind as [rest |]; simpl; eexists; repeat split.
  - destruct answers as [| a answers]; [simpl in Hlen; lia |].
    apply Forall_cons in Hans as [-> Hans].
    destruct session as [sdk0 [ws0 [mx its] wact] sock act0].
    unfold queued_frames in *. simpl in *. subst.
    unfold stream_frames_turn, PyQueue.get_nowait. simpl.
    destruct m as [d ts |]; [| contradiction]. simpl.
    edestruct (IH (mkEntry sdk0 (StreamingVideoWriter.mk ws0
                     (PyQueue.mk mx (frames ++ match behind with
                                                | Some rest => EndMsg :: rest
                                                | None => []
                                                end)) wact) sock true) answers)
      as (s1 & Hrun & Hleft & Hact1 & Hsdk1); try reflexivity; [exact Hans | lia |].
    unfold set_writer, set_frame_queue. simpl. rewrite Hrun.
    exists s1. repeat split; assumption.
Qed.

(** X24. When [send_text] raises on a frame, the loop ends there: the function
    catches the error and returns, the frame it had taken from the queue is
    lost, and the frames behind it stay queued, unsent. *)
Theorem delivery_ends_on_send_error
    (session : session_entry) (later : list (option exn)) (e : exn)
    (data : string) (timestamp : float) (rest : list msg) :
  active session = true →
  queued_frames session = FrameMsg data timestamp :: rest →
  ∃ s1,
    stream_frames_loop (Some e :: later) session = (s1, [], Some (Caught e)) ∧
    queued_frames s1 = rest.
Proof.
  intros Hact Hq. destruct session as [sdk0 [ws0 [mx its] wact] sock act0].
  unfold queued_frames in *. simpl in *. subst.
  unfold stream_frames_turn, PyQueue.get_nowait. simpl.
  eexists. split; reflexivity.
Qed.

End Delivery.

(** ** Frames reach the viewer in generation order *)
Section DeliveryOrder.
Context `{Extern}.
Import StreamingVideoWriter TalkingHeadStreamingService StreamFrames.

(** What can happen to a session while its delivery loop runs: the engine
    writes a frame, the loop takes a turn, [close_session] clears the
    [active] flag, or it closes the writer. *)
Inductive event : Type :=
| Engine (c : frame_call)
| Deliver (send_raises : option exn)
| Deactivate
| WriterClose.

(** The events applied in order to the session, with the list of what was
    sent so far and whether the loop has ended. *)
Fixpoint interleave (evs : list event) (session : session_entry) (sent : list msg)
    (over : bool) : session_entry * list msg * bool :=
  match evs with
  | [] => (session, sent, over)
  | Engine c :: rest =>
      interleave rest (set_writer session (fst (call (writer session) c))) sent over
  | Deliver send_raises :: rest =>
      if over then interleave rest session sent over
      else
        match stream_frames_turn session send_raises with
        | (session1, Sent frame_data) => interleave rest session1 (sent ++ [frame_data]) false
        | (session1, Suspended) => interleave rest session1 sent false
        | (session1, _) => interleave rest session1 sent true
        end
  | Deactivate :: rest => interleave rest (set_active session false) sent over
  | WriterClose :: rest =>
      interleave rest (set_writer session (fst (close (writer session)))) sent over
  end.

(** The JPEG text of a frame dictionary; the end marker has none. *)
Definition jpeg_of (m : msg) : option string :=
  match m with FrameMsg data _ => Some data | EndMsg => None end.

(** The JPEG texts the engine writes during the events, in order. *)
Definition generated (evs : list event) : list string :=
  omap (λ ev, match ev with
              | Engine c => Some (frame_base64 (frame_rgb c) (fmt c))
              | _ => None
              end) evs.

Lemma omap_sublist {A B : Type} (f : A → option B) (l k : list A) :
  l `sublist_of` k → omap f l `sublist_of` omap f k.
Proof.
  induction 1 as [| x l k _ IH | x l k _ IH]; simpl.
  - constructor.
  - destruct (f x); [constructor |]; exact IH.
  - destruct (f x); [constructor |]; exact IH.
Qed.

Lemma tail_sublist {A : Type} (x : A) (l k : list A) : l ++ k `sublist_of` (x :: l) ++ k.
Proof. simpl. constructor. reflexivity. Qed.

(** Whatever a call of the writer does to the queue, what it leaves is, in
    order, part of what was queued followed by the frame of the call. *)
Lemma call_keeps_order (w : StreamingVideoWriter.t) (c : frame_call) :
  omap jpeg_of (PyQueue.items (frame_queue (fst (call w c))))
  `sublist_of`
  omap jpeg_of (PyQueue.items (frame_queue w)) ++ [frame_base64 (frame_rgb c) (fmt c)].
Proof.
  unfold call, __call__, PyQueue.put_nowait, PyQueue.get_nowait.
  destruct w as [ws0 [mx its] act].
  destruct act; simpl; [| apply sublist_inserts_r; reflexivity].
  destruct (PyQueue.full (PyQueue.mk mx its)); simpl.
  - destruct its as [| y rest]; simpl; [apply sublist_nil_l |].
    destruct (PyQueue.full (PyQueue.mk mx rest)); simpl.
    + destruct (jpeg_of y); [constructor |]; apply sublist_inserts_r; reflexivity.
    + rewrite omap_app. simpl. destruct (jpeg_of y); [constructor |]; reflexivity.
  - rewrite omap_app. reflexivity.
Qed.

Lemma close_keeps_order (w : StreamingVideoWriter.t) :
  omap jpeg_of (PyQueue.items (frame_queue (fst (close w))))
  = omap jpeg_of (PyQueue.items (frame_queue w)).
Proof.
  unfold close, PyQueue.put_nowait. simpl.
  destruct (PyQueue.full (frame_queue w)); simpl; [reflexivity |].
  rewrite omap_app. simpl. apply app_nil_r.
Qed.

Lemma interleave_keeps_order (evs : list event) (session : session_entry)
    (sent : list msg) (over : bool) (history : list string) :
  omap jpeg_of (sent ++ queued_frames session) `sublist_of` history →
  Forall is_frame sent →
  ∃ s1 sent1 over1,
    interleave evs session sent over = (s1, sent1, over1) ∧
    omap jpeg_of (sent1 ++ queued_frames s1) `sublist_of` history ++ generated evs ∧
    Forall is_frame sent1.
Proof.
  revert session sent over history.
  induction evs as [| ev evs IH]; intros session sent over history Hinv Hsent.
  - do 3 eexists. split; [reflexivity |]. unfold generated. simpl.
    rewrite app_nil_r. auto.
  - destruct ev as [c | a | |]; simpl.
    + edestruct (IH (set_writer session (fst (call (writer session) c))) sent over
                    (history ++ [frame_base64 (frame_rgb c) (fmt c)]))
        as (s1 & sent1 & over1 & Hrun & Hord & Hfr); [| exact Hsent |].
      { unfold queued_frames in *. simpl. rewrite omap_app in *.
        etransitivity;
          [apply sublist_app; [reflexivity | apply call_keeps_order] |].
        rewrite app_assoc. apply sublist_app; [exact Hinv | reflexivity]. }
      do 3 eexists. split; [exact Hrun |]. split; [| exact Hfr].
      unfold generated in *. simpl. rewrite <- app_assoc in Hord. exact Hord.
    + destruct over.
      { edestruct (IH session sent true history Hinv Hsent)
          as (s1 & sent1 & over1 & Hrun & Hord & Hfr).
        do 3 eexists. split; [exact Hrun |]. split; [exact Hord | exact Hfr]. }
      unfold stream_frames_turn, PyQueue.get_nowait.
      destruct session as [sdk0 [ws0 [mx its] wact] sock act0].
      unfold queued_frames in Hinv. simpl in Hinv. simpl.
      destruct act0; simpl; [| apply (IH _ sent true history); assumption].
      destruct its as [| m rest]; simpl; [apply (IH _ sent false history); assumption |].
      destruct m as [d ts |]; simpl.
      * destruct a as [e |]; simpl.
        -- apply (IH _ sent true history); [| exact Hsent].
           etransitivity; [| exact Hinv]. simpl.
           apply omap_sublist, sublist_app; [reflexivity | constructor; reflexivity].
        -- apply (IH _ (sent ++ [FrameMsg d ts]) false history).
           ++ simpl. rewrite <- app_assoc. exact Hinv.
           ++ apply Forall_app. split; [exact Hsent | repeat constructor].
      * apply (IH _ sent true history); [| exact Hsent].
        etransitivity; [| exact Hinv]. simpl.
        apply omap_sublist, sublist_app; [reflexivity | constructor; reflexivity].
    + apply (IH (set_active session false) sent over history); assumption.
    + apply (IH (set_writer session (fst (close (writer session)))) sent over history);
        [| exact Hsent].
      unfold queued_frames in *. simpl. rewrite omap_app in *.
      rewrite close_keeps_order. exact Hinv.
Qed.

(** X25. However frames written by the engine, turns of the delivery loop and
    the steps of [close_session] interleave, the frames sent to the viewer
    are, in order, a selection of the frames that were queued at the start
    followed by the frames the engine generated: no frame is sent twice or
    out of order, frames are only ever dropped, and the end marker is never
    sent. *)
Theorem frames_are_sent_in_generation_order (evs : list event) (session : session_entry) :
  ∃ s1 sent over,
    interleave evs session [] false = (s1, sent, over) ∧
    omap jpeg_of sent `sublist_of` omap jpeg_of (queued_frames session) ++ generated evs ∧
    Forall is_frame sent.
Proof.
  destruct (interleave_keeps_order evs session [] false
              (omap jpeg_of (queued_frames session)))
    as (s1 & sent & over & Hrun & Hord & Hfr); [reflexivity | constructor |].
  exists s1, sent, over. split; [exact Hrun |]. split; [| exact Hfr].
  etransitivity; [| exact Hord]. rewrite omap_app. apply sublist_inserts_r. reflexivity.
Qed.

End DeliveryOrder.

(** The session after three frames of the engine, and after the writer
    was closed behind them. *)
Definition three_frames : list (StreamingVideoWriter.msg (H := test_extern)) :=
  (λ i, StreamingVideoWriter.FrameMsg (H := test_extern)
          (StreamingVideoWriter.frame_base64 (H := test_extern) (test_frame i) "rgb"%string)
          (2 * Z.of_nat i)) <$> seq 0 3.

Definition session_with_three_frames
  : TalkingHeadStreamingService.session_entry (H := test_extern) :=
  TalkingHeadStreamingService.set_writer the_session
    (fst (StreamingVideoWriter.calls (StreamingVideoWriter.__init__ (H := test_extern) 7%nat)
            (test_call <$> seq 0 3))).

Definition session_closed_behind_three_frames
  : TalkingHeadStreamingService.session_entry (H := test_extern) :=
  TalkingHeadStreamingService.set_writer the_session
    (fst (StreamingVideoWriter.close
            (TalkingHeadStreamingService.writer session_with_three_frames))).

Lemma delivery_stops_at_end_marker_witness :
  ∃ s1,
    StreamFrames.stream_frames_loop [None; None; None; None]
      session_closed_behind_three_frames
    = (s1, three_frames, Some StreamFrames.Broke) ∧
    queued_frames s1 = default [] (Some []) ∧
    TalkingHeadStreamingService.active s1 = true ∧
    TalkingHeadStreamingService.sdk s1
    = TalkingHeadStreamingService.sdk session_closed_behind_three_frames.
Proof.
  apply (delivery_stops_at_end_marker (H := test_extern) session_closed_behind_three_frames
           [None; None; None; None] three_frames (Some [])).
  - reflexivity.
  - repeat constructor.
  - reflexivity.
  - repeat constructor.
  - simpl. lia.
Defined.

Lemma delivery_ends_on_send_error_witness :
  ∃ s1,
    StreamFrames.stream_frames_loop [Some (RuntimeError "socket closed"%string); None]
      session_with_three_frames
    = (s1, [], Some (StreamFrames.Caught (RuntimeError "socket closed"%string))) ∧
    queued_frames s1 = drop 1 three_frames.
Proof.
  apply (delivery_ends_on_send_error (H := test_extern) session_with_three_frames [None]
           (RuntimeError "socket closed"%string)
           (StreamingVideoWriter.frame_base64 (H := test_extern) (test_frame 0) "rgb"%string)
           0 (drop 1 three_frames)).
  - reflexivity.
  - reflexivity.
Defined.

(** ** [websocket_endpoint] *)
Module WebSocketEndpoint.
Section WithExtern.
Context `{Extern}.
Import TalkingHeadStreamingService.

(** The exceptions the endpoint can meet: the disconnect of the client,
    the errors of reading the start message, and those of the services.
    All of them derive from Exception. *)
Inductive ws_exn : Type :=
| WebSocketDisconnect
| JSONDecodeError
| KeyError (key : string)
| Other (e : exn).

(** The first text message as [json.loads] reads it.  The model covers
    texts that are no JSON and JSON objects whose values are strings. *)
Inductive start_text : Type :=
| NotJson
| JsonObject (fields : gmap string string).

(** What [receive_text()] gives: *)
Inductive first_message : Type :=
| FirstRaises (e : ws_exn)
| FirstText (text : start_text).

(** What one [receive_bytes()] gives: audio bytes, together with what
    [run_chunk] raises on them if anything, or an exception. *)
Inductive received : Type :=
| Audio (audio_data : list byte) (run_chunk_raises : option exn)
| ReceiveRaises (e : ws_exn).

(** How the [try] block ends. *)
Inductive try_end : Type :=
| Disconnected            (* WebSocketDisconnect inside the loop: [break] *)
| Printed (e : ws_exn)    (* [except Exception as e: print(...)] *)
| NoStart.                (* the first message has another "type" *)

(** The loop [while True: ...]: [None] when every event of the script was
    consumed and the loop waits for the next message. *)
Fixpoint receive_loop (service : t) (session_id : string) (script : list received)
  : t * option try_end :=
  match script with
  | [] => (service, None)
  | ReceiveRaises WebSocketDisconnect :: _ => (service, Some Disconnected)
  | ReceiveRaises e :: _ => (service, Some (Printed e))
  | Audio audio_data run_chunk_raises :: rest =>
      match frombuffer_float32 audio_data with
      | Raise e => (service, Some (Printed (Other e)))
      | Ok audio_array =>
          match process_audio_chunk service session_id audio_array run_chunk_raises with
          | (service1, Ok _) => receive_loop service1 session_id rest
          | (service1, Raise e) => (service1, Some (Printed (Other e)))
          end
      end
  end.

(** What the outside answers to the endpoint besides the messages. *)
Record endpoint_env : Type := mkEnv {
  accept_raises : option exn;
  sdk_init_raises : option exn;
  sdk_setup_raises : option exn;
  sdk_close_raises : option exn
}.

(** How a connection stands after the script. *)
Inductive outcome : Type :=
| NotAccepted (e : exn)     (* [accept()] raised, before the [try] *)
| StillReceiving            (* inside the loop, waiting for a message *)
| Closed (how : try_end) (session : option session_entry) (r : result unit).
                            (* the [finally] ran: what [close_session]
                               worked on and how it ended *)

(** The [try] block. *)
Definition try_block (service : t) (socket : StreamingVideoWriter.WebSocket)
    (session_id : string) (first : first_message) (script : list received)
    (env : endpoint_env) : t * option try_end :=
  match first with
  | FirstRaises e => (service, Some (Printed e))
  | FirstText NotJson => (service, Some (Printed JSONDecodeError))
  | FirstText (JsonObject start_msg) =>
      match start_msg !! "type" with
      | None => (service, Some (Printed (KeyError "type")))
      | Some type =>
          if String.eqb type "start" then
            match start_msg !! "source_path" with
            | None => (service, Some (Printed (KeyError "source_path")))
            | Some source_path =>
                match create_session service session_id source_path socket
                        (sdk_init_raises env) (sdk_setup_raises env) with
                | (service1, Raise e) => (service1, Some (Printed (Other e)))
                | (service1, Ok _) =>
                    (* the task of [stream_frames] is created here *)
                    receive_loop service1 session_id script
                end
            end
          else (service, Some NoStart)
      end
  end.

(** [websocket_endpoint(websocket)]; [session_id] is the text of the clock
    reading taken after [accept()]. *)
Definition websocket_endpoint (service : t) (socket : StreamingVideoWriter.WebSocket)
    (session_id : string) (first : first_message) (script : list received)
    (env : endpoint_env) : t * outcome :=
  match accept_raises env with
  | Some e => (service, NotAccepted e)
  | None =>
      match try_block service socket session_id first script env with
      | (service1, None) => (service1, StillReceiving)
      | (service1, Some how) =>
          (* finally: *)
          match close_session service1 session_id (sdk_close_raises env) with
          | (service2, session, r) => (service2, Closed how session r)
          end
      end
  end.

End WithExtern.
End WebSocketEndpoint.

(** ** What a connection leaves behind *)
Section Connections.
Context `{Extern}.
Import TalkingHeadStreamingService WebSocketEndpoint.

(** X26. Once the [finally] of the endpoint has run, the session of the
    connection is gone from the registry -- however the connection ended --
    unless [sdk.close()] raised: then that exception leaves the endpoint, and
    the session stays registered with its [active] flag cleared. *)
Theorem connection_leaves_no_session
    (service service1 : t) (socket : StreamingVideoWriter.WebSocket) (session_id : string)
    (first : first_message) (script : list received) (env : endpoint_env)
    (how : try_end) (session : option session_entry) (r : result unit) :
  websocket_endpoint service socket session_id first script env
  = (service1, Closed how session r) →
  match r with
  | Ok _ => active_sessions service1 !! session_id = None
  | Raise e =>
      sdk_close_raises env = Some e ∧
      ∃ s, session = Some s ∧ active_sessions service1 !! session_id = Some s ∧
           active s = false
  end.
Proof.
  unfold websocket_endpoint.
  destruct (accept_raises env); [discriminate |].
  destruct (try_block _ _ _ _ _ _) as [svc [h |]]; [| discriminate].
  destruct (close_session svc session_id (sdk_close_raises env)) as [[svc2 touched] r2] eqn:Hc.
  intros [= <- <- <- <-].
  destruct r2 as [[] | e].
  - apply (close_session_done svc session_id _ svc2 touched Hc).
  - revert Hc. unfold close_session.
    destruct (active_sessions svc !! session_id) as [s0 |]; [| discriminate].
    destruct (sdk_close_raises env) as [e' |]; simpl.
    + intros [= <- <- <-]. split; [reflexivity |]. eexists. split; [reflexivity |].
      simpl. rewrite lookup_insert_eq. split; reflexivity.
    + destruct (close_returns (writer s0)) as (w1 & Hw & _). rewrite Hw. discriminate.
Qed.









End Connections.

Definition start_message : WebSocketEndpoint.first_message :=
  WebSocketEndpoint.FirstText
    (WebSocketEndpoint.JsonObject
       (<["type"%string := "start"%string]>
          (<["source_path"%string := "avatar.png"%string]> ∅))).


(** Two chunks, then three stray bytes, then a chunk nobody reads. *)
Definition ragged_script : list WebSocketEndpoint.received :=
  ((λ b, WebSocketEndpoint.Audio b None) <$> (test_buffer <$> seq 0 2)) ++
  WebSocketEndpoint.Audio [Byte.x00; Byte.x00; Byte.x80] None ::
  [WebSocketEndpoint.Audio (test_buffer 9) None].


Definition endpoint_close_fails : WebSocketEndpoint.endpoint_env :=
  WebSocketEndpoint.mkEnv None None None (Some (RuntimeError "worker raised"%string)).

Definition broken_connection :=
  WebSocketEndpoint.websocket_endpoint empty_ws_service 7%nat "1730000000.25"%string
    start_message ragged_script endpoint_close_fails.

(** The same connection with an engine whose [close] raises. *)
Lemma connection_leaves_no_session_witness :
  WebSocketEndpoint.sdk_close_raises endpoint_close_fails
  = Some (RuntimeError "worker raised"%string) ∧
  ∃ s,
    Some (TalkingHeadStreamingService.set_active
            (TalkingHeadStreamingService.set_sdk the_session
               (StreamSDK.mk "cfg.pkl"%string "checkpoints"%string
                  (Some ("avatar.png"%string, TalkingHeadStreamingService.setup_kwargs))
                  (Some StreamSDK.SessionWriter) (test_chunk <$> seq 0 2) false)) false)
    = Some s ∧
    TalkingHeadStreamingService.active_sessions (fst broken_connection)
      !! "1730000000.25"%string = Some s ∧
    TalkingHeadStreamingService.active s = false.
Proof.
  apply (connection_leaves_no_session (H := test_extern) empty_ws_service
           (fst broken_connection) 7%nat "1730000000.25"%string start_message ragged_script
           endpoint_close_fails
           (WebSocketEndpoint.Printed
              (WebSocketEndpoint.Other
                 (ValueError "buffer size must be a multiple of element size"%string)))
           _ (Raise (RuntimeError "worker raised"%string))).
  vm_compute. reflexivity.
Defined.

